(** * Monzo JSON importer: a shallow embedding of [monzo_importer.py]

    The importer reads a JSON document fetched from the Monzo API and maps
    every transaction record to one beancount directive.  The embedding
    keeps the records as the untyped JSON values the Python code receives,
    models Python's exceptions with an error monad, and models the
    [decimal] arithmetic of the standard library at the default context
    (28 significant digits, round-half-even).

    JSON numbers are the integers of the provider's minor-unit amounts;
    fractional JSON numbers are outside the model.  Strings are byte
    strings (UTF-8). *)

From Stdlib Require Import ZArith List String Ascii Bool Lia QArith DecimalString.
Import ListNotations.
Set Warnings "-register-all".
Local Open Scope string_scope.
Local Open Scope Z_scope.

(** ** Python values and exceptions *)

Module Py.

(** The exception classes the importer can raise. *)
Inductive exn : Type :=
| KeyError
| TypeError
| AttributeError
| IndexError
| ValueError
| AssertionError
| DivisionByZero
| InvalidOperation
| OSError.

Inductive result (A : Type) : Type :=
| Ok (a : A)
| Raise (e : exn).
Arguments Ok {A} a.
Arguments Raise {A} e.

Definition bind {A B} (m : result A) (k : A -> result B) : result B :=
  match m with
  | Ok a => k a
  | Raise e => Raise e
  end.

(** [try: m except KeyError: h] *)
Definition except_KeyError {A} (m : result A) (h : result A) : result A :=
  match m with
  | Raise KeyError => h
  | _ => m
  end.

(** What [json.load] produces.  [JNull] is [None]; [JBool false] doubles
    as the [False] the importer's helpers return as a sentinel. *)
Inductive json : Type :=
| JNull
| JBool (b : bool)
| JInt (z : Z)
| JStr (s : string)
| JArr (l : list json)
| JObj (o : list (string * json)).

(** A [dict] is kept as an association list in insertion order. *)
Definition dict := list (string * json).

Fixpoint dict_get (o : dict) (k : string) : option json :=
  match o with
  | [] => None
  | (k', v) :: o' => if String.eqb k k' then Some v else dict_get o' k
  end.

Definition dict_mem (o : dict) (k : string) : bool :=
  match dict_get o k with Some _ => true | None => false end.

(** [d[k] = v]: replace in place, or append a new key. *)
Fixpoint dict_set (o : dict) (k : string) (v : json) : dict :=
  match o with
  | [] => [(k, v)]
  | (k', v') :: o' =>
      if String.eqb k k' then (k, v) :: o' else (k', v') :: dict_set o' k v
  end.

(** [d.update(e)] *)
Definition dict_update (o e : dict) : dict :=
  fold_left (fun acc kv => dict_set acc (fst kv) (snd kv)) e o.

(** [a == b] on JSON values: booleans compare as the integers 0 and 1,
    lists element-wise, dicts key by key regardless of order. *)
Fixpoint py_eq (a b : json) {struct a} : bool :=
  match a, b with
  | JNull, JNull => true
  | JBool x, JBool y => Bool.eqb x y
  | JBool x, JInt y => Z.b2z x =? y
  | JInt x, JBool y => x =? Z.b2z y
  | JInt x, JInt y => x =? y
  | JStr x, JStr y => String.eqb x y
  | JArr xs, JArr ys =>
      (fix go (xs ys : list json) {struct xs} : bool :=
         match xs, ys with
         | [], [] => true
         | x :: xs', y :: ys' => py_eq x y && go xs' ys'
         | _, _ => false
         end) xs ys
  | JObj xs, JObj ys =>
      (Nat.eqb (List.length xs) (List.length ys))
      && (fix go (xs : dict) {struct xs} : bool :=
            match xs with
            | [] => true
            | (k, v) :: xs' =>
                match dict_get ys k with
                | Some v' => py_eq v v'
                | None => false
                end && go xs'
            end) xs
  | _, _ => false
  end.

(** [bool(v)] *)
Definition truthy (v : json) : bool :=
  match v with
  | JNull => false
  | JBool b => b
  | JInt z => negb (z =? 0)
  | JStr s => negb (String.eqb s "")
  | JArr l => match l with [] => false | _ => true end
  | JObj o => match o with [] => false | _ => true end
  end.

(** [needle in haystack] for two strings: substring search. *)
Fixpoint substring_of (needle hay : string) : bool :=
  String.prefix needle hay
  || match hay with
     | EmptyString => false
     | String _ hay' => substring_of needle hay'
     end.

(** [v[k]] with a string key. *)
Definition getitem (v : json) (k : string) : result json :=
  match v with
  | JObj o => match dict_get o k with Some x => Ok x | None => Raise KeyError end
  | _ => Raise TypeError
  end.

(** [v[0]] *)
Definition getitem0 (v : json) : result json :=
  match v with
  | JArr (x :: _) => Ok x
  | JArr [] => Raise IndexError
  | JStr (String c _) => Ok (JStr (String c EmptyString))
  | JStr EmptyString => Raise IndexError
  | JObj _ => Raise KeyError
  | _ => Raise TypeError
  end.

(** [k in v] with a string [k]. *)
Definition contains (k : string) (v : json) : result bool :=
  match v with
  | JObj o => Ok (dict_mem o k)
  | JStr s => Ok (substring_of k s)
  | JArr l => Ok (existsb (py_eq (JStr k)) l)
  | _ => Raise TypeError
  end.

(** [len(v)] *)
Definition len (v : json) : result nat :=
  match v with
  | JObj o => Ok (List.length o)
  | JStr s => Ok (String.length s)
  | JArr l => Ok (List.length l)
  | _ => Raise TypeError
  end.

(** The items a [for] loop over [v] visits: the elements of a list, the
    keys of a dict, the characters of a string. *)
Definition iter (v : json) : result (list json) :=
  match v with
  | JArr l => Ok l
  | JObj o => Ok (map (fun kv => JStr (fst kv)) o)
  | JStr s => Ok (map (fun c => JStr (String c EmptyString)) (list_ascii_of_string s))
  | _ => Raise TypeError
  end.

Definition lower_ascii (c : ascii) : ascii :=
  let n := nat_of_ascii c in
  if (Nat.leb 65 n && Nat.leb n 90)%bool then ascii_of_nat (n + 32) else c.

Fixpoint lower_string (s : string) : string :=
  match s with
  | EmptyString => EmptyString
  | String c s' => String (lower_ascii c) (lower_string s')
  end.

(** [v.lower()]: only [str] has the method.  Letters outside ASCII never
    lower to an ASCII letter of the strings the importer compares with,
    so lowering the ASCII range is enough. *)
Definition lower (v : json) : result string :=
  match v with
  | JStr s => Ok (lower_string s)
  | _ => Raise AttributeError
  end.

(** Only scalars can be members of a [set]. *)
Definition hashable (v : json) : bool :=
  match v with
  | JArr _ | JObj _ => false
  | _ => true
  end.

End Py.
Import Py.

Declare Scope py_scope.
Delimit Scope py_scope with py.
Notation "x <- m ;; k" := (bind m (fun x => k))
  (at level 61, m at next level, right associativity) : py_scope.
Local Open Scope py_scope.

(** ** Decimal arithmetic

    [decimal.Decimal] at the default context: precision 28, rounding
    ROUND_HALF_EVEN.  A finite decimal is a sign, a non-negative
    coefficient and an exponent.  The operations follow the reference
    implementation ([_pydecimal]); the exponent limits of the context
    (beyond 10^999999) and the special values are not modelled. *)

Module Dec.

Record decimal : Type := mkDec { dsign : bool; dcoeff : Z; dexp : Z }.

Definition prec : Z := 28.

Fixpoint ndigits_aux (fuel : nat) (c : Z) : Z :=
  match fuel with
  | O => 1
  | S f => if c <? 10 then 1 else 1 + ndigits_aux f (c / 10)
  end.

(** [len(str(c))] for a non-negative [c]. *)
Definition ndigits (c : Z) : Z := ndigits_aux (Z.to_nat (Z.log2 c)) c.

(** Drop the last [k] digits of [c], rounding half to even. *)
Definition round_half_even (c k : Z) : Z :=
  let p := 10 ^ k in
  let q := c / p in
  let r := c mod p in
  if (p <? 2 * r) || ((2 * r =? p) && Z.odd q) then q + 1 else q.

(** [Decimal._fix]: round to the precision of the context. *)
Definition dec_fix (d : decimal) : decimal :=
  let c := dcoeff d in
  if c =? 0 then d
  else
    let n := ndigits c in
    if prec <? n then
      let k := n - prec in
      let c' := round_half_even c k in
      if prec <? ndigits c'
      then mkDec (dsign d) (c' / 10) (dexp d + k + 1)
      else mkDec (dsign d) c' (dexp d + k)
    else d.

(** [Decimal(z)] for an [int]: exact, whatever the precision. *)
Definition of_Z (z : Z) : decimal := mkDec (z <? 0) (Z.abs z) 0.

Definition zero : decimal := mkDec false 0 0.

(** The loop of an exact division that brings the exponent as close to
    the ideal one as the trailing zeros allow. *)
Fixpoint strip_zeros (fuel : nat) (ideal coeff exp : Z) : Z * Z :=
  match fuel with
  | O => (coeff, exp)
  | S f =>
      if (exp <? ideal) && (coeff mod 10 =? 0)
      then strip_zeros f ideal (coeff / 10) (exp + 1)
      else (coeff, exp)
  end.

(** [a / b] *)
Definition div (a b : decimal) : result decimal :=
  let sign := xorb (dsign a) (dsign b) in
  if dcoeff b =? 0 then
    if dcoeff a =? 0 then Raise InvalidOperation else Raise DivisionByZero
  else if dcoeff a =? 0 then
    Ok (dec_fix (mkDec sign 0 (dexp a - dexp b)))
  else
    let shift := ndigits (dcoeff b) - ndigits (dcoeff a) + prec + 1 in
    let exp := dexp a - dexp b - shift in
    let num := if 0 <=? shift then dcoeff a * 10 ^ shift else dcoeff a in
    let den := if 0 <=? shift then dcoeff b else dcoeff b * 10 ^ (- shift) in
    let coeff := num / den in
    let remainder := num mod den in
    if remainder =? 0 then
      let ideal := dexp a - dexp b in
      let '(coeff', exp') := strip_zeros (Z.to_nat (ideal - exp)) ideal coeff exp in
      Ok (dec_fix (mkDec sign coeff' exp'))
    else
      let coeff' := if coeff mod 5 =? 0 then coeff + 1 else coeff in
      Ok (dec_fix (mkDec sign coeff' exp)).

(** [-a] *)
Definition neg (a : decimal) : decimal :=
  if dcoeff a =? 0 then dec_fix (mkDec false (dcoeff a) (dexp a))
  else dec_fix (mkDec (negb (dsign a)) (dcoeff a) (dexp a)).

(** [abs(a)] *)
Definition abs (a : decimal) : decimal :=
  dec_fix (mkDec false (dcoeff a) (dexp a)).

(** [Decimal._rescale]: the same number at exponent [e], rounded. *)
Definition rescale (d : decimal) (e : Z) : decimal :=
  if dcoeff d =? 0 then mkDec (dsign d) 0 e
  else if e <=? dexp d then mkDec (dsign d) (dcoeff d * 10 ^ (dexp d - e)) e
  else mkDec (dsign d) (round_half_even (dcoeff d) (e - dexp d)) e.

(** [a.adjusted()]: the exponent of the leading digit. *)
Definition adjusted (d : decimal) : Z := ndigits (dcoeff d) + dexp d - 1.

(** [a.quantize(Decimal((0, (1,), e)))] *)
Definition quantize (d : decimal) (e : Z) : result decimal :=
  if dcoeff d =? 0 then Ok (dec_fix (mkDec (dsign d) 0 e))
  else if prec <? adjusted d - e + 1 then Raise InvalidOperation
  else
    let ans := rescale d e in
    if prec <? ndigits (dcoeff ans) then Raise InvalidOperation
    else Ok (dec_fix ans).

(** [round(a, n)] *)
Definition round (d : decimal) (n : Z) : result decimal := quantize d (- n).

(** The power of ten just above the leading digit. *)
Definition top (d : decimal) : Z := adjusted d + 1.

(** The rational a decimal denotes. *)
Definition value (d : decimal) : Q :=
  (inject_Z (if dsign d then - dcoeff d else dcoeff d) * Qpower (10 # 1) (dexp d))%Q.

End Dec.
Import Dec.

(** ** Beancount data ([beancount.core]) *)

Record date : Type := mkDate { year : Z; month : Z; day : Z }.

Record Amount : Type := mkAmount { number : decimal; currency : json }.

(** [Amount(number, currency)]: the constructor asserts that the currency
    is a [str] or [None]. *)
Definition new_Amount (n : decimal) (c : json) : result Amount :=
  match c with
  | JStr _ | JNull => Ok (mkAmount n c)
  | _ => Raise AssertionError
  end.

(** [-amount] *)
Definition Amount_neg (a : Amount) : result Amount :=
  new_Amount (Dec.neg (number a)) (currency a).

Definition FLAG_OKAY : string := "*".
Definition FLAG_WARNING : string := "!".

Record Posting : Type := mkPosting {
  account : string;
  units : Amount;
  cost : option Amount;
  price : option Amount;
  flag : option string;
  pmeta : option dict
}.

(** The two directives the importer emits.  [None] as a payee is [JNull];
    a [set] is kept as the list of its members. *)
Inductive entry : Type :=
| Note (meta : dict) (d : date) (acct : string) (comment : string)
| Transaction (meta : dict) (d : date) (flg : string) (payee narration : json)
    (tags : list string) (links : list json) (postings : list Posting).

(** [data.new_metadata(filename, lineno, kvlist)] *)
Definition new_metadata (filename : string) (lineno : Z) (kvlist : dict) : dict :=
  let meta := [("filename", JStr filename); ("lineno", JInt lineno)] in
  match kvlist with
  | [] => meta
  | _ => dict_update meta kvlist
  end.

(** ** The environment of the importer *)

(** Library functions whose results the importer only passes on. *)
Record Library : Type := {
  (** [mimetypes.guess_type(path)[0]] *)
  guess_type : string -> option string;
  (** [open(path)] followed by reading the whole file *)
  open_read : string -> result string;
  (** [json.loads] *)
  json_loads : string -> result json;
  (** [datetime.datetime.fromisoformat(s).date()], [None] for a
      [ValueError] *)
  fromisoformat : string -> option date;
  (** [Decimal(s)] after beancount has removed the thousands separators
      of a non-empty string *)
  Decimal_of_string : string -> result decimal;
  (** [str(v)] for a list or a dict *)
  container_str : json -> string
}.

(** The object state set by [Importer.__init__]. *)
Record Importer : Type := {
  account_id : string;
  importer_account : string
}.

(** [str(z)] for an [int] *)
Definition string_of_Z (z : Z) : string :=
  NilZero.string_of_int (Z.to_int z).

(** ** The importer *)

Section Mapper.

Variable lib : Library.
Variable self : Importer.

(** [beancount.core.number.D] *)
Definition D (strord : json) : result decimal :=
  match strord with
  | JNull => Ok Dec.zero
  | JStr s => if String.eqb s "" then Ok Dec.zero else Decimal_of_string lib s
  | JInt z => Ok (Dec.of_Z z)
  | JBool b => Ok (Dec.of_Z (Z.b2z b))
  | JArr _ | JObj _ => Raise ValueError
  end.

(** [str(v)], as the [%s] conversion applies it *)
Definition str (v : json) : string :=
  match v with
  | JStr s => s
  | JNull => "None"
  | JBool true => "True"
  | JBool false => "False"
  | JInt z => string_of_Z z
  | JArr _ | JObj _ => container_str lib v
  end.

Definition is_json_mimetype (m : option string) : bool :=
  match m with
  | Some s => String.eqb s "application/json"
  | None => false
  end.

Definition parse_transaction_time (date_str : json) : result date :=
  match date_str with
  | JStr s =>
      match fromisoformat lib s with
      | Some d => Ok d
      | None => Raise ValueError
      end
  | _ => Raise TypeError
  end.

Definition get_account_id (filepath : string) : result json :=
  if negb (is_json_mimetype (guess_type lib filepath)) then Ok (JBool false)
  else
    data_file <- open_read lib filepath ;;
    except_KeyError
      (data <- json_loads lib data_file ;;
       transactions <- getitem data "transactions" ;;
       n <- len transactions ;;
       if Nat.eqb n 0 then Ok (JBool false)
       else
         first <- getitem0 transactions ;;
         has_id <- contains "account_id" first ;;
         if has_id then getitem first "account_id" else Ok (JBool false))
      (Ok (JBool false)).

Definition get_transactions (filepath : string) : result json :=
  if negb (is_json_mimetype (guess_type lib filepath)) then Ok (JBool false)
  else
    data_file <- open_read lib filepath ;;
    data <- json_loads lib data_file ;;
    has <- contains "transactions" data ;;
    if has then getitem data "transactions" else Ok (JBool false).

Definition get_unit_price (transaction : json) : result (option Amount) :=
  local_currency <- getitem transaction "local_currency" ;;
  currency <- getitem transaction "currency" ;;
  if negb (py_eq local_currency currency) then
    local_amount <- getitem transaction "local_amount" ;;
    if negb (py_eq local_amount (JInt 0)) then
      amount <- getitem transaction "amount" ;;
      total_local_amount <- D amount ;;
      total_foreign_amount <- D local_amount ;;
      quotient <- Dec.div total_foreign_amount total_local_amount ;;
      unit_price <- Dec.round (Dec.abs quotient) 5 ;;
      p <- new_Amount unit_price local_currency ;;
      Ok (Some p)
    else Ok None
  else Ok None.

Definition get_payee (transaction : json) : result json :=
  merchant <- getitem transaction "merchant" ;;
  if truthy merchant then getitem merchant "name"
  else
    counterparty <- getitem transaction "counterparty" ;;
    has_prefered <- contains "prefered_name" counterparty ;;
    if has_prefered then getitem counterparty "prefered_name"
    else
      has_name <- contains "name" counterparty ;;
      if has_name then getitem counterparty "name" else Ok JNull.

Definition get_narration (transaction : json) : result json :=
  notes <- getitem transaction "notes" ;;
  if negb (py_eq notes (JStr "")) then Ok notes
  else
    scheme <- getitem transaction "scheme" ;;
    if py_eq scheme (JStr "uk_retail_pot") then Ok (JStr "Internal pot transfer")
    else getitem transaction "description".

(** The [metadata] dict of one iteration of [extract]: the literal, then
    the item assignments of the counterparty shape. *)
Definition extract_metadata (transaction : json) : result dict :=
  id <- getitem transaction "id" ;;
  dedupe_id <- getitem transaction "dedupe_id" ;;
  description <- getitem transaction "description" ;;
  created <- getitem transaction "created" ;;
  settled <- getitem transaction "settled" ;;
  updated <- getitem transaction "updated" ;;
  let metadata :=
    [("bank_id", id); ("bank_dedupe_id", dedupe_id);
     ("bank_description", description); ("bank_created_date", created);
     ("bank_settlement_date", settled); ("bank_updated_date", updated)] in
  counterparty <- getitem transaction "counterparty" ;;
  has_account <- contains "account_number" counterparty ;;
  if has_account then
    account_number <- getitem counterparty "account_number" ;;
    let metadata := dict_set metadata "counterparty_account_number" account_number in
    sort_code <- getitem counterparty "sort_code" ;;
    Ok (dict_set metadata "counterparty_sort_code" sort_code)
  else
    has_number <- contains "number" counterparty ;;
    if has_number then
      phone <- getitem counterparty "number" ;;
      let metadata := dict_set metadata "counterparty_phone_number" phone in
      user_id <- getitem counterparty "user_id" ;;
      Ok (dict_set metadata "counterparty_user_id" user_id)
    else Ok metadata.

(** One iteration of the loop of [extract]: [entries] is the list built so
    far, the result is the list after the iteration. *)
Definition extract_body (filepath : string) (entries : list entry)
    (transaction : json) : result (list entry) :=
  metadata <- extract_metadata transaction ;;
  let meta := new_metadata filepath 0 metadata in
  notes <- getitem transaction "notes" ;;
  lowered <- lower notes ;;
  if String.eqb lowered "pin change" then
    created <- getitem transaction "created" ;;
    d <- parse_transaction_time created ;;
    Ok (entries ++ [Note meta d (importer_account self) "PIN Change"])%list
  else
    declined <- contains "decline_reason" transaction ;;
    if declined then
      payee <- get_payee transaction ;;
      reason <- getitem transaction "decline_reason" ;;
      let note := str payee ++ " transaction declined with reason " ++ str reason in
      created <- getitem transaction "created" ;;
      d <- parse_transaction_time created ;;
      Ok (entries ++ [Note meta d (importer_account self) note])%list
    else
      created <- getitem transaction "created" ;;
      d <- parse_transaction_time created ;;
      price <- get_unit_price transaction ;;
      payee <- get_payee transaction ;;
      narration <- get_narration transaction ;;
      amount <- getitem transaction "amount" ;;
      total <- D amount ;;
      hundredth <- Dec.div total (Dec.of_Z 100) ;;
      currency <- getitem transaction "currency" ;;
      unit <- new_Amount hundredth currency ;;
      let postings := [mkPosting (importer_account self) unit None price None None] in
      (* Default to warning as requires human review/categorisation *)
      let flag : option string := Some FLAG_WARNING in
      let link : list json := [] in
      scheme <- getitem transaction "scheme" ;;
      state <-
        (if py_eq scheme (JStr "uk_retail_pot") then
           let second_account := importer_account self in
           let flag : option string := None in
           pot_metadata <- getitem transaction "metadata" ;;
           pot_id <- getitem pot_metadata "pot_id" ;;
           if hashable pot_id then
             let link := [pot_id] in
             negated <- Amount_neg unit ;;
             Ok (flag, link,
                 (postings ++
                    [mkPosting second_account negated None None flag None])%list)
           else Raise TypeError
         else Ok (flag, link, postings)) ;;
      let '(flag, link, postings) := state in
      Ok (entries ++
          [Transaction meta d FLAG_OKAY payee narration [] link postings])%list.

Fixpoint extract_loop (filepath : string) (transactions : list json)
    (entries : list entry) : result (list entry) :=
  match transactions with
  | [] => Ok entries
  | transaction :: rest =>
      entries' <- extract_body filepath entries transaction ;;
      extract_loop filepath rest entries'
  end.

(** [Importer.identify] *)
Definition identify (filepath : string) : result bool :=
  identifier <- get_account_id filepath ;;
  Ok (py_eq identifier (JStr (account_id self))).

(** [Importer.account] *)
Definition importer_account_of (filepath : string) : string :=
  importer_account self.

(** [Importer.date] *)
Definition importer_date (filepath : string) : result date :=
  transactions <- get_transactions filepath ;;
  first <- getitem0 transactions ;;
  created <- getitem first "created" ;;
  parse_transaction_time created.

(** [Importer.extract]: [existing] is accepted and never read. *)
Definition extract (filepath : string) (existing : option (list entry))
  : result (list entry) :=
  let entries : list entry := [] in
  transactions <- get_transactions filepath ;;
  items <- iter transactions ;;
  extract_loop filepath items entries.

End Mapper.

(** ** File names

    [os.path.basename] on a POSIX path: what follows the last slash. *)

Fixpoint has_slash (p : string) : bool :=
  match p with
  | EmptyString => false
  | String c rest => Ascii.eqb c "/" || has_slash rest
  end.

(** [p[p.rfind('/') + 1:]] *)
Fixpoint basename (p : string) : string :=
  match p with
  | EmptyString => EmptyString
  | String c rest =>
      if has_slash rest then basename rest
      else if Ascii.eqb c "/" then rest
      else p
  end.

(** [Importer.filename] *)
Definition filename (filepath : string) : string :=
  "monzo." ++ basename filepath.

(** ** A concrete environment and concrete records

    Used to run the importer on explicit inputs. *)

Definition sample_created : string := "2024-03-09T18:25:43.511Z".

Definition sample_files (transactions : list json) : list (string * json) :=
  [ ("empty-object.json", JObj []);
    ("array.json", JArr []);
    ("2024-03-10-monzo-acc_00009237aqC8c5umZmrRdh.json",
     JObj [("transactions", JArr transactions)]) ].

Definition sample_lib_with (transactions : list json) : Library := {|
  guess_type p :=
    if substring_of ".json" p then Some "application/json"
    else if substring_of ".csv" p then Some "text/csv"
    else None;
  open_read p := Ok p;
  json_loads c :=
    match find (fun f => String.eqb (fst f) c) (sample_files transactions) with
    | Some f => Ok (snd f)
    | None => Raise ValueError
    end;
  fromisoformat s :=
    if String.eqb s sample_created then Some (mkDate 2024 3 9) else None;
  Decimal_of_string _ := Raise ValueError;
  container_str _ := ""
|}.

(** The library functions alone, for what does not read a file. *)
Definition sample_lib : Library := sample_lib_with [].

Definition sample_importer : Importer := {|
  account_id := "acc_00009237aqC8c5umZmrRdh";
  importer_account := "Assets:Monzo:Current"
|}.

(** The fields every record of the API carries. *)
Definition sample_base (notes scheme : string) (amount local_amount : Z)
    (currency local_currency : string) : dict :=
  [ ("id", JStr "tx_0000A1");
    ("dedupe_id", JStr "dedupe_0000A1");
    ("description", JStr "TESCO STORES 3297");
    ("created", JStr sample_created);
    ("settled", JStr "2024-03-10T04:00:00.000Z");
    ("updated", JStr "2024-03-10T04:00:01.000Z");
    ("account_id", JStr "acc_00009237aqC8c5umZmrRdh");
    ("notes", JStr notes);
    ("scheme", JStr scheme);
    ("amount", JInt amount);
    ("currency", JStr currency);
    ("local_amount", JInt local_amount);
    ("local_currency", JStr local_currency);
    ("merchant", JObj [("name", JStr "Tesco")]);
    ("counterparty", JObj []);
    ("metadata", JObj [("pot_id", JStr "pot_0000778xxfgh4iu8z83nWb")]) ].

(** A card payment in the account's currency. *)
Definition sample_general : json :=
  JObj (sample_base "" "mastercard" (-1250) (-1250) "GBP" "GBP").

(** A card payment abroad: 8.50 EUR settled as 10.00 GBP. *)
Definition sample_foreign : json :=
  JObj (sample_base "" "mastercard" 1000 (-850) "GBP" "EUR").

(** An active card check abroad: nothing is charged. *)
Definition sample_card_check : json :=
  JObj (sample_base "" "mastercard" 0 0 "GBP" "EUR").

(** A foreign record with a local amount and a zero settlement amount. *)
Definition sample_zero_amount : json :=
  JObj (sample_base "" "mastercard" 0 (-850) "GBP" "EUR").

(** A transfer into a pot. *)
Definition sample_pot : json :=
  JObj (sample_base "" "uk_retail_pot" (-5000) (-5000) "GBP" "GBP").

(** A pot transfer whose local currency is not the settlement currency. *)
Definition sample_pot_foreign : json :=
  JObj (sample_base "" "uk_retail_pot" (-5000) (-5850) "GBP" "EUR").

(** A declined pot transfer. *)
Definition sample_pot_declined : json :=
  JObj (sample_base "" "uk_retail_pot" (-5000) (-5000) "GBP" "GBP"
        ++ [("decline_reason", JStr "INSUFFICIENT_FUNDS")])%list.

(** A PIN change that is also marked declined, on the pot scheme. *)
Definition sample_pin_change : json :=
  JObj (sample_base "PIN Change" "uk_retail_pot" 0 0 "GBP" "GBP"
        ++ [("decline_reason", JStr "OTHER")])%list.

(** A declined payment to a person known by a preferred name. *)
Definition sample_p2p_counterparty : dict :=
  [ ("name", JStr "Alexandra Smith");
    ("number", JStr "+447700900123");
    ("prefered_name", JStr "Alex");
    ("user_id", JStr "user_00009238") ].

Definition sample_declined_p2p_fields : dict :=
  [ ("id", JStr "tx_0000A2");
    ("dedupe_id", JStr "dedupe_0000A2");
    ("description", JStr "Payment");
    ("created", JStr sample_created);
    ("settled", JStr "");
    ("updated", JStr "2024-03-10T04:00:01.000Z");
    ("notes", JStr "lunch");
    ("scheme", JStr "p2p_payment");
    ("amount", JInt (-700));
    ("currency", JStr "GBP");
    ("local_amount", JInt (-700));
    ("local_currency", JStr "GBP");
    ("merchant", JNull);
    ("counterparty", JObj sample_p2p_counterparty);
    ("decline_reason", JStr "INSUFFICIENT_FUNDS") ].

Definition sample_declined_p2p : json := JObj sample_declined_p2p_fields.

(** A record without a counterparty, and one whose counterparty is null. *)
Definition sample_no_counterparty : json :=
  JObj (filter (fun kv => negb (String.eqb (fst kv) "counterparty"))
          (sample_base "PIN Change" "mastercard" 0 0 "GBP" "GBP")).

Definition sample_null_counterparty : json :=
  JObj (dict_set (sample_base "" "mastercard" (-1250) (-1250) "GBP" "GBP")
          "counterparty" JNull).

(** The file of one fetch: a card payment, a pot transfer, a PIN change
    and a declined payment. *)
Definition sample_march : Library :=
  sample_lib_with
    [sample_general; sample_pot; sample_pin_change; sample_declined_p2p].

Definition sample_march_path : string :=
  "2024-03-10-monzo-acc_00009237aqC8c5umZmrRdh.json".

(** The same environment at a later time: another file has become
    unreadable, the fetch itself is untouched. *)
Definition sample_march_later : Library := {|
  guess_type := guess_type sample_march;
  open_read p :=
    if String.eqb p "empty-object.json" then Raise OSError
    else open_read sample_march p;
  json_loads := json_loads sample_march;
  fromisoformat := fromisoformat sample_march;
  Decimal_of_string := Decimal_of_string sample_march;
  container_str := container_str sample_march
|}.

(** Two fetches with a record that lacks its counterparty: a PIN change
    without the key, a card payment with a null. *)
Definition sample_broken_items : list json :=
  [sample_general; sample_no_counterparty; sample_pot].

Definition sample_broken : Library := sample_lib_with sample_broken_items.

Definition sample_broken_null_items : list json :=
  [sample_pin_change; sample_null_counterparty].

Definition sample_broken_null : Library :=
  sample_lib_with sample_broken_null_items.

(** ** More concrete records *)

Definition sample_other_importer : Importer := {|
  account_id := "acc_0000A4wLmMnQ0TzKqbbbbb";
  importer_account := "Assets:Monzo:Joint"
|}.

(** The fields a Note is built from. *)
Definition note_keys : list string :=
  [ "id"; "dedupe_id"; "description"; "created"; "settled"; "updated";
    "counterparty"; "notes"; "decline_reason"; "merchant" ].

(** The records of [sample_march], by name. *)
Definition sample_march_items : list json :=
  [sample_general; sample_pot; sample_pin_change; sample_declined_p2p].

(** A bank transfer received from a person: no merchant, a counterparty
    with sort code and account number (and a phone number as well). *)
Definition sample_bank_counterparty : dict :=
  [ ("account_number", JStr "12345678");
    ("name", JStr "Alexandra Smith");
    ("number", JStr "+447700900123");
    ("sort_code", JStr "040004");
    ("user_id", JStr "anonuser_e0c1fe0a") ].

Definition sample_bank_transfer_fields : dict :=
  dict_set
    (dict_set (sample_base "rent" "payport_faster_payments" 65000 65000 "GBP" "GBP")
       "merchant" JNull)
    "counterparty" (JObj sample_bank_counterparty).

Definition sample_bank_transfer : json := JObj sample_bank_transfer_fields.

Definition sample_april_items : list json :=
  [sample_bank_transfer; sample_declined_p2p; sample_foreign].

Definition sample_april : Library := sample_lib_with sample_april_items.

(** A bank transfer whose counterparty lacks the sort code. *)
Definition sample_no_sort_code_fields : dict :=
  dict_set (sample_base "rent" "payport_faster_payments" 65000 65000 "GBP" "GBP")
    "counterparty" (JObj [("account_number", JStr "12345678")]).

Definition sample_no_sort_code_items : list json :=
  [sample_general; JObj sample_no_sort_code_fields].

Definition sample_no_sort_code : Library :=
  sample_lib_with sample_no_sort_code_items.

(** A card payment fetched without [expand[]=merchant]: the merchant is
    its identifier. *)
Definition sample_unexpanded_fields : dict :=
  dict_set (sample_base "" "mastercard" (-1250) (-1250) "GBP" "GBP")
    "merchant" (JStr "merch_00009Bq5hvIhOl3kEc2R3J").

(** A PIN change as the API reports it, and the same with the amounts,
    the currencies, the scheme and the pot metadata removed. *)
Definition sample_pin_change_fields : dict :=
  sample_base "PIN Change" "mastercard" 0 0 "GBP" "GBP".

Definition sample_pin_change_bare_fields : dict :=
  filter (fun kv => existsb (String.eqb (fst kv)) note_keys) sample_pin_change_fields.

(** ** Vocabulary of the statements *)

(** The first of the counterparty's preferred name and name, [None] when
    it has neither. *)
Definition counterparty_payee (counterparty : dict) : json :=
  match dict_get counterparty "prefered_name" with
  | Some preferred => preferred
  | None =>
      match dict_get counterparty "name" with
      | Some name => name
      | None => JNull
      end
  end.

(** An entry carries the flag that asks for review: on the directive or
    on one of its postings. *)
Definition review_flagged (e : entry) : bool :=
  match e with
  | Note _ _ _ _ => false
  | Transaction _ _ flg _ _ _ _ postings =>
      String.eqb flg FLAG_WARNING
      || existsb (fun p => match flag p with
                           | Some f => String.eqb f FLAG_WARNING
                           | None => false
                           end) postings
  end.

(** The postings of an entry; a Note has none. *)
Definition postings_of (e : entry) : list Posting :=
  match e with
  | Note _ _ _ _ => []
  | Transaction _ _ _ _ _ _ _ postings => postings
  end.

(** The integer nearest to the quotient [n / d], the even one of the two
    when the quotient lies half-way: what rounding a quotient half to even
    means, stated without the decimal machinery. *)
Definition round_quotient (n d : Z) : Z :=
  let q := n / d in
  let r := n mod d in
  if (d <? 2 * r) || ((2 * r =? d) && Z.odd q) then q + 1 else q.

(** [t] is nearest to [n / d], and even in case of a tie. *)
Definition nearest_even (n d t : Z) : Prop :=
  2 * Z.abs (t * d - n) < d \/ (2 * Z.abs (t * d - n) = d /\ Z.even t = true).

(** The metadata, the date and the accounts of an entry. *)
Definition entry_meta (e : entry) : dict :=
  match e with
  | Note meta _ _ _ => meta
  | Transaction meta _ _ _ _ _ _ _ => meta
  end.

Definition entry_date (e : entry) : date :=
  match e with
  | Note _ d _ _ => d
  | Transaction _ d _ _ _ _ _ _ => d
  end.

(** The metadata keys every entry carries, each with the field of the
    record it is copied from. *)
Definition bank_keys : list (string * string) :=
  [ ("bank_id", "id"); ("bank_dedupe_id", "dedupe_id");
    ("bank_description", "description"); ("bank_created_date", "created");
    ("bank_settlement_date", "settled"); ("bank_updated_date", "updated") ].

(** The four shapes of an entry, in the order the loop body tests for
    them. *)
Inductive shape : Type := PinChange | Declined | PotTransfer | General.

Definition classify (fields : dict) (notes : string) : shape :=
  if String.eqb (lower_string notes) "pin change" then PinChange
  else if dict_mem fields "decline_reason" then Declined
  else
    match dict_get fields "scheme" with
    | Some scheme =>
        if py_eq scheme (JStr "uk_retail_pot") then PotTransfer else General
    | None => General
    end.

Definition has_shape (sh : shape) (e : entry) : Prop :=
  match sh with
  | PinChange => exists meta d acct, e = Note meta d acct "PIN Change"
  | Declined => exists meta d acct text, e = Note meta d acct text
  | PotTransfer =>
      exists meta d flg payee narration tags link first mirror,
        e = Transaction meta d flg payee narration tags [link] [first; mirror]
  | General =>
      exists meta d flg payee narration tags only,
        e = Transaction meta d flg payee narration tags [] [only]
  end.

(** What every entry of the importer looks like: on the importer's
    account throughout, a Transaction flagged '*' without tags, with one
    posting and no link or two postings and one link, no posting with a
    cost, a flag or metadata, and no price but on the first posting. *)
Definition plain_posting (acct : string) (p : Posting) : Prop :=
  account p = acct /\ cost p = None /\ flag p = None /\ pmeta p = None.

Definition entry_well_formed (acct : string) (e : entry) : Prop :=
  match e with
  | Note _ _ a _ => a = acct
  | Transaction _ _ flg _ _ tags links postings =>
      flg = FLAG_OKAY /\ tags = [] /\
      Forall (plain_posting acct) postings /\
      match postings, links with
      | [_], [] => True
      | [first; mirror], [_] =>
          price mirror = None /\
          currency (units mirror) = currency (units first) /\
          number (units mirror) = Dec.neg (number (units first))
      | _, _ => False
      end
  end.

(** The metadata [m] of an entry holds the counterparty of the record [t]
    in one of its two shapes, or not at all: sort code and account number
    when the counterparty has an account number, otherwise phone number
    and user when it has a number. *)
Definition one_counterparty_shape (t : json) (m : dict) : Prop :=
  exists counterparty,
    getitem t "counterparty" = Ok counterparty /\
    ((contains "account_number" counterparty = Ok true /\
      (exists account_number sort_code,
          getitem counterparty "account_number" = Ok account_number /\
          getitem counterparty "sort_code" = Ok sort_code /\
          dict_get m "counterparty_account_number" = Some account_number /\
          dict_get m "counterparty_sort_code" = Some sort_code) /\
      dict_get m "counterparty_phone_number" = None /\
      dict_get m "counterparty_user_id" = None) \/
     (contains "account_number" counterparty = Ok false /\
      contains "number" counterparty = Ok true /\
      (exists phone user_id,
          getitem counterparty "number" = Ok phone /\
          getitem counterparty "user_id" = Ok user_id /\
          dict_get m "counterparty_phone_number" = Some phone /\
          dict_get m "counterparty_user_id" = Some user_id) /\
      dict_get m "counterparty_account_number" = None /\
      dict_get m "counterparty_sort_code" = None) \/
     (contains "account_number" counterparty = Ok false /\
      contains "number" counterparty = Ok false /\
      dict_get m "counterparty_account_number" = None /\
      dict_get m "counterparty_sort_code" = None /\
      dict_get m "counterparty_phone_number" = None /\
      dict_get m "counterparty_user_id" = None)).

(** * Properties *)

(** ** The error monad *)

Lemma bind_Ok_inv {A B} (m : result A) (k : A -> result B) (b : B) :
  bind m k = Ok b -> exists a, m = Ok a /\ k a = Ok b.
Proof.
  destruct m as [a|e]; simpl; intros H; [eauto | discriminate].
Qed.

(** Case analysis along a chain of binds and conditionals. *)
Ltac step_bind :=
  match goal with
  | |- context [bind (Ok _) _] => cbn [bind]
  | |- context [bind (Raise _) _] => cbn [bind]
  | |- context [if ?b then _ else _] =>
      let E := fresh "E" in destruct b eqn:E; cbn [bind]
  | |- context [let '(_, _) := ?p in _] => destruct p; cbn [bind]
  | |- context [bind ?m _] =>
      let E := fresh "E" in destruct m eqn:E; cbn [bind]
  end.

Ltac step_binds := repeat step_bind.

(** ** Decimal arithmetic: digit counts, rounding, division *)

(** With enough fuel the digit count brackets the number between two
    powers of ten. *)
Lemma ndigits_aux_spec fuel :
  forall c, 0 < c -> c < 2 ^ (Z.of_nat fuel + 1) ->
    1 <= ndigits_aux fuel c /\
    10 ^ (ndigits_aux fuel c - 1) <= c < 10 ^ (ndigits_aux fuel c).
Proof.
  induction fuel as [|fuel IH]; intros c Hpos Hlt.
  - simpl in *. lia.
  - cbn [ndigits_aux]. destruct (Z.ltb_spec c 10) as [Hc|Hc].
    + simpl. lia.
    + assert (Hq : 0 < c / 10) by (apply Z.div_str_pos; lia).
      assert (Hlt' : c / 10 < 2 ^ (Z.of_nat fuel + 1)).
      { replace (Z.of_nat (S fuel) + 1) with (Z.succ (Z.of_nat fuel + 1)) in Hlt by lia.
        rewrite Z.pow_succ_r in Hlt by lia.
        apply Z.div_lt_upper_bound; lia. }
      destruct (IH _ Hq Hlt') as (H1 & H2 & H3).
      set (n := ndigits_aux fuel (c / 10)) in *.
      replace (1 + n - 1) with (Z.succ (n - 1)) by lia.
      replace (1 + n) with (Z.succ n) by lia.
      rewrite !Z.pow_succ_r by lia.
      pose proof (Z.div_mod c 10 ltac:(lia)) as Hdm.
      pose proof (Z.mod_pos_bound c 10 ltac:(lia)) as Hm.
      lia.
Qed.

(** A positive [c] has [ndigits c] digits. *)
Lemma ndigits_spec c :
  0 < c -> 1 <= ndigits c /\ 10 ^ (ndigits c - 1) <= c < 10 ^ (ndigits c).
Proof.
  intros Hpos. unfold ndigits. apply ndigits_aux_spec; [assumption|].
  rewrite Z2Nat.id by apply Z.log2_nonneg.
  pose proof (Z.log2_spec c Hpos) as H.
  replace (Z.log2 c + 1) with (Z.succ (Z.log2 c)) by lia. lia.
Qed.

Lemma ndigits_pos c : 1 <= ndigits c.
Proof.
  destruct (Z.ltb_spec 0 c) as [H|H]; [now apply ndigits_spec|].
  unfold ndigits. destruct c; try lia; reflexivity.
Qed.

Lemma ndigits_le c n : 1 <= n -> c < 10 ^ n -> ndigits c <= n.
Proof.
  intros Hn Hc. destruct (Z.ltb_spec 0 c) as [H|H].
  - destruct (ndigits_spec c H) as (H1 & H2 & _).
    assert (10 ^ (ndigits c - 1) < 10 ^ n) by lia.
    apply Z.pow_lt_mono_r_iff in H0; lia.
  - unfold ndigits. destruct c; try lia; simpl; lia.
Qed.

Lemma ndigits_ge c n : 0 < c -> 10 ^ (n - 1) <= c -> n <= ndigits c.
Proof.
  intros Hc Hn. destruct (ndigits_spec c Hc) as (H1 & _ & H3).
  destruct (Z.ltb_spec n 1); [lia|].
  assert (10 ^ (n - 1) < 10 ^ ndigits c) by lia.
  apply Z.pow_lt_mono_r_iff in H0; lia.
Qed.

Lemma ndigits_gt_inv c n : 0 <= c -> 1 <= n -> n < ndigits c -> 10 ^ n <= c.
Proof.
  intros Hc Hn H. destruct (Z.ltb_spec c (10 ^ n)); [|lia].
  pose proof (ndigits_le c n Hn H0). lia.
Qed.

Lemma round_half_even_bounds c k :
  c / 10 ^ k <= round_half_even c k <= c / 10 ^ k + 1.
Proof. unfold round_half_even. destruct (_ || _); lia. Qed.

(** A coefficient that fits the precision is left alone. *)
Lemma dec_fix_small s c e :
  ndigits c <= prec -> dec_fix (mkDec s c e) = mkDec s c e.
Proof.
  intros H. unfold dec_fix. cbn [dcoeff dsign dexp].
  destruct (c =? 0); [reflexivity|].
  destruct (Z.ltb_spec prec (ndigits c)); [lia|reflexivity].
Qed.

(** After rounding, the coefficient fits the precision and the leading
    digit has moved up by one place at most. *)
Lemma dec_fix_shape d :
  0 < dcoeff d ->
  0 < dcoeff (dec_fix d) /\
  ndigits (dcoeff (dec_fix d)) <= prec /\
  top (dec_fix d) <= top d + 1 /\
  dsign (dec_fix d) = dsign d.
Proof.
  destruct d as [s c e]. unfold top, adjusted, dec_fix. cbn [dcoeff dsign dexp]. intros Hc.
  destruct (Z.eqb_spec c 0) as [->|_]; [lia|].
  destruct (ndigits_spec c Hc) as (Hn1 & Hlo & Hhi).
  destruct (Z.ltb_spec prec (ndigits c)) as [Hbig|Hsmall];
    cbn [dcoeff dsign dexp]; [|repeat split; lia].
  set (n := ndigits c) in *. set (k := n - prec).
  assert (Hk : 0 < k) by (unfold k; lia).
  pose proof (round_half_even_bounds c k) as (Hrlo & Hrhi).
  assert (Hp : 0 < 10 ^ k) by (apply Z.pow_pos_nonneg; lia).
  assert (Hq : 10 ^ (prec - 1) <= c / 10 ^ k < 10 ^ prec).
  { split.
    - apply Z.div_le_lower_bound; [lia|].
      rewrite <- Z.pow_add_r by (unfold prec; lia).
      replace (k + (prec - 1)) with (n - 1) by (unfold k; lia). lia.
    - apply Z.div_lt_upper_bound; [lia|].
      rewrite <- Z.pow_add_r by (unfold prec; lia).
      replace (k + prec) with n by (unfold k; lia). lia. }
  assert (H27 : 0 < 10 ^ (prec - 1)) by (apply Z.pow_pos_nonneg; unfold prec; lia).
  set (c' := round_half_even c k) in *.
  destruct (Z.ltb_spec prec (ndigits c')) as [Hcarry|Hfit]; cbn [dcoeff dsign dexp].
  - assert (H28 : 10 ^ prec <= c') by (apply ndigits_gt_inv; unfold prec in *; lia).
    assert (Hc' : c' = 10 ^ prec) by lia.
    assert (Hdiv : c' / 10 = 10 ^ (prec - 1)) by (rewrite Hc'; reflexivity).
    rewrite Hdiv.
    assert (ndigits (10 ^ (prec - 1)) <= prec)
      by (apply ndigits_le; unfold prec; simpl; lia).
    split; [lia|]. split; [assumption|]. split; [unfold k; lia|reflexivity].
  - split; [lia|]. split; [assumption|]. split; [unfold k; lia|reflexivity].
Qed.

Lemma dec_fix_idem d : 0 <= dcoeff d -> dec_fix (dec_fix d) = dec_fix d.
Proof.
  intros H. destruct (Z.eqb_spec (dcoeff d) 0) as [H0|H0].
  - destruct d as [s c e]. simpl in H0. subst c. reflexivity.
  - destruct (dec_fix_shape d ltac:(lia)) as (_ & Hd & _).
    destruct (dec_fix d) as [s c e]. now apply dec_fix_small.
Qed.

(** Dropping a trailing zero drops a digit. *)
Lemma ndigits_div10 c : 0 < c -> c mod 10 = 0 ->
  0 < c / 10 /\ ndigits (c / 10) = ndigits c - 1.
Proof.
  intros Hc Hm.
  pose proof (Z.div_mod c 10 ltac:(lia)) as Hdm.
  assert (Hq : 0 < c / 10) by lia. split; [assumption|].
  destruct (ndigits_spec c Hc) as (Hn1 & Hlo & Hhi).
  destruct (ndigits_spec _ Hq) as (Hm1 & Hlo' & Hhi').
  assert (ndigits (c / 10) <= ndigits c - 1).
  { assert (2 <= ndigits c) by (apply ndigits_ge; simpl; lia).
    apply ndigits_le; [lia|].
    apply Z.div_lt_upper_bound; [lia|].
    rewrite <- (Z.pow_succ_r 10) by lia.
    replace (Z.succ (ndigits c - 1)) with (ndigits c) by lia. lia. }
  assert (ndigits c - 1 <= ndigits (c / 10)).
  { apply ndigits_ge; [lia|].
    apply Z.div_le_lower_bound; [lia|].
    destruct (Z.eq_dec (ndigits c) 1) as [E|E].
    - rewrite E. simpl. lia.
    - rewrite <- (Z.pow_succ_r 10) by lia.
      replace (Z.succ (ndigits c - 1 - 1)) with (ndigits c - 1) by lia. lia. }
  lia.
Qed.

(** The loop keeps the number, and with fuel for every step it stops at
    the ideal exponent or at a last digit that is not zero. *)
Lemma strip_zeros_shape fuel ideal :
  forall c e c' e',
    0 < c ->
    strip_zeros fuel ideal c e = (c', e') ->
    0 < c' /\ ndigits c' + e' = ndigits c + e /\ e <= e' /\
    c = c' * 10 ^ (e' - e) /\
    (ideal - e <= Z.of_nat fuel -> e' < ideal -> c' mod 10 <> 0).
Proof.
  induction fuel as [|fuel IH]; intros c e c' e' Hc H; cbn [strip_zeros] in H.
  - injection H as <- <-. rewrite Z.sub_diag. simpl. repeat split; lia.
  - destruct (Z.ltb_spec e ideal) as [He|He]; cbn [andb] in H.
    + destruct (Z.eqb_spec (c mod 10) 0) as [Hm|Hm].
      * destruct (ndigits_div10 c Hc Hm) as (Hq & Hnd).
        destruct (IH _ _ _ _ Hq H) as (H1 & H2 & H3 & H4 & H5).
        assert (Hval : c = c' * 10 ^ (e' - e)).
        { pose proof (Z.div_mod c 10 ltac:(lia)) as Hdm.
          replace (e' - e) with (Z.succ (e' - (e + 1))) by lia.
          rewrite Z.pow_succ_r by lia. lia. }
        split; [lia|]. split; [lia|]. split; [lia|]. split; [assumption|].
        intros. apply H5; lia.
      * injection H as <- <-. rewrite Z.sub_diag. simpl. repeat split; lia.
    + injection H as <- <-. rewrite Z.sub_diag. simpl. repeat split; lia.
Qed.

(** The operands of the integer division are scaled so that the quotient
    has 29 or 30 digits. *)
Lemma div_operands_bounds x y :
  0 < x -> 0 < y ->
  let shift := ndigits y - ndigits x + prec + 1 in
  let num := if 0 <=? shift then x * 10 ^ shift else x in
  let den := if 0 <=? shift then y else y * 10 ^ (- shift) in
  0 < den /\ 10 ^ prec * den <= num /\ num < 10 ^ (prec + 2) * den.
Proof.
  intros Hx Hy shift num den.
  destruct (ndigits_spec x Hx) as (Hnx & Hxlo & Hxhi).
  destruct (ndigits_spec y Hy) as (Hny & Hylo & Hyhi).
  set (nx := ndigits x) in *. set (ny := ndigits y) in *.
  assert (P : forall k, 0 <= k -> 0 < 10 ^ k) by (intros; apply Z.pow_pos_nonneg; lia).
  unfold prec in *.
  destruct (Z.leb_spec 0 shift) as [Hs|Hs]; subst num den.
  - split; [assumption|]. split.
    + (* 10^28 * y <= x * 10^shift *)
      apply Z.le_trans with (10 ^ 28 * 10 ^ ny).
      * apply Z.mul_le_mono_nonneg_l; [apply Z.lt_le_incl, P|]; lia.
      * rewrite <- Z.pow_add_r by lia.
        replace (28 + ny) with ((nx - 1) + shift) by (unfold shift; lia).
        rewrite Z.pow_add_r by lia.
        apply Z.mul_le_mono_nonneg_r; [apply Z.lt_le_incl, P; lia|lia].
    + apply Z.lt_le_trans with (10 ^ nx * 10 ^ shift).
      * apply Z.mul_lt_mono_pos_r; [apply P; lia|lia].
      * rewrite <- Z.pow_add_r by lia.
        replace (nx + shift) with ((28 + 2) + (ny - 1)) by (unfold shift; lia).
        rewrite Z.pow_add_r by lia.
        apply Z.mul_le_mono_nonneg_l; [apply Z.lt_le_incl, P; lia|lia].
  - assert (Hp : 0 < 10 ^ (- shift)) by (apply P; lia).
    split; [apply Z.mul_pos_pos; assumption|]. split.
    + apply Z.le_trans with (10 ^ 28 * (10 ^ ny * 10 ^ (- shift))).
      * apply Z.mul_le_mono_nonneg_l; [apply Z.lt_le_incl, P; lia|].
        apply Z.mul_le_mono_nonneg_r; lia.
      * rewrite <- !Z.pow_add_r by lia.
        replace (28 + (ny + - shift)) with (nx - 1) by (unfold shift; lia). lia.
    + apply Z.lt_le_trans with (10 ^ nx); [lia|].
      replace nx with ((28 + 2) + ((ny - 1) + - shift)) at 1 by (unfold shift; lia).
      rewrite Z.pow_add_r by lia.
      apply Z.mul_le_mono_nonneg_l; [apply Z.lt_le_incl, P; lia|].
      rewrite Z.pow_add_r by lia.
      apply Z.mul_le_mono_nonneg_r; lia.
Qed.

(** Dividing two non-zero decimals succeeds, with a coefficient that fits
    the precision. *)
Lemma div_shape a b :
  0 < dcoeff a -> 0 < dcoeff b ->
  exists r,
    Dec.div a b = Ok r /\
    0 < dcoeff r /\
    ndigits (dcoeff r) <= prec /\
    top r <= top a - top b + 2 /\
    dsign r = xorb (dsign a) (dsign b).
Proof.
  intros Ha Hb. unfold Dec.div.
  destruct (Z.eqb_spec (dcoeff b) 0) as [E|_]; [lia|].
  destruct (Z.eqb_spec (dcoeff a) 0) as [E|_]; [lia|].
  pose proof (div_operands_bounds (dcoeff a) (dcoeff b) Ha Hb) as H.
  cbv zeta in H |- *.
  set (shift := ndigits (dcoeff b) - ndigits (dcoeff a) + prec + 1) in *.
  set (num := if 0 <=? shift then dcoeff a * 10 ^ shift else dcoeff a) in *.
  set (den := if 0 <=? shift then dcoeff b else dcoeff b * 10 ^ (- shift)) in *.
  destruct H as (Hden & Hlo & Hhi).
  assert (Hq : 10 ^ prec <= num / den < 10 ^ (prec + 2)).
  { split.
    - apply Z.div_le_lower_bound; lia.
    - apply Z.div_lt_upper_bound; lia. }
  set (q := num / den) in *.
  assert (Hqpos : 0 < q) by (unfold prec in Hq; simpl in Hq; lia).
  set (exp := dexp a - dexp b - shift).
  assert (Hfinal : forall c e,
             0 < c -> ndigits c + e <= ndigits q + exp \/
                      (c < 10 ^ (prec + 2) /\ e = exp) ->
             let r := dec_fix (mkDec (xorb (dsign a) (dsign b)) c e) in
             0 < dcoeff r /\ ndigits (dcoeff r) <= prec /\
             top r <= top a - top b + 2 /\
             dsign r = xorb (dsign a) (dsign b)).
  { intros c e Hc Hce r.
    destruct (dec_fix_shape (mkDec (xorb (dsign a) (dsign b)) c e) Hc)
      as (H1 & H2 & H3 & H4).
    fold r in H1, H2, H3, H4. unfold top, adjusted in H3 |- *. cbn [dcoeff dexp dsign] in *.
    assert (ndigits q <= prec + 2) by (apply ndigits_le; unfold prec in *; lia).
    assert (ndigits c + e <= prec + 2 + exp).
    { destruct Hce as [Hce | (Hce & ->)]; [lia|].
      assert (ndigits c <= prec + 2) by (apply ndigits_le; unfold prec in *; lia).
      lia. }
    repeat split; try assumption. unfold exp, shift in *. lia. }
  destruct (Z.eqb_spec (num mod den) 0) as [Hrem|Hrem].
  - destruct (strip_zeros _ _ q exp) as [c' e'] eqn:Hstrip.
    destruct (strip_zeros_shape _ _ _ _ _ _ Hqpos Hstrip) as (H1 & H2 & _).
    eexists. split; [reflexivity|]. apply Hfinal; [assumption|left; lia].
  - eexists. split; [reflexivity|]. apply Hfinal.
    + destruct (q mod 5 =? 0); lia.
    + right. split; [|reflexivity].
      destruct (Z.eqb_spec (q mod 5) 0) as [H5|H5]; [|lia].
      unfold prec in *. simpl in Hq |- *.
      pose proof (Z.div_mod q 5 ltac:(lia)). lia.
Qed.

Lemma abs_shape r :
  0 < dcoeff r -> ndigits (dcoeff r) <= prec ->
  Dec.abs r = mkDec false (dcoeff r) (dexp r).
Proof. intros _ H. unfold Dec.abs. now apply dec_fix_small. Qed.

Lemma strip_zeros_le fuel ideal :
  forall c e c' e',
    e <= ideal -> strip_zeros fuel ideal c e = (c', e') -> e' <= ideal.
Proof.
  induction fuel as [|fuel IH]; intros c e c' e' He H; cbn [strip_zeros] in H.
  - injection H as <- <-. assumption.
  - destruct ((e <? ideal) && (c mod 10 =? 0)) eqn:Hc.
    + apply andb_prop in Hc as (Hlt & _). apply Z.ltb_lt in Hlt.
      eapply IH; [|exact H]; lia.
    + injection H as <- <-. assumption.
Qed.

(** Negation negates the value. *)
Lemma value_neg h :
  0 <= dcoeff h -> ndigits (dcoeff h) <= prec ->
  (value (Dec.neg h) == - value h)%Q.
Proof.
  intros Hc Hd. destruct h as [s c e]. unfold Dec.neg. cbn [dcoeff dexp dsign] in *.
  rewrite !dec_fix_small by assumption.
  destruct (Z.eqb_spec c 0) as [->|_];
    unfold value; cbn [dcoeff dexp dsign];
    generalize (Qpower (10 # 1) e); intros p.
  - destruct s; change (inject_Z (- 0)) with 0%Q; change (inject_Z 0) with 0%Q; ring.
  - destruct s; cbn [negb]; rewrite ?inject_Z_opp; ring.
Qed.

(** Dividing an integer by 100 always succeeds. *)
Lemma div_by_100 a :
  exists h,
    Dec.div (Dec.of_Z a) (Dec.of_Z 100) = Ok h /\
    0 <= dcoeff h /\ ndigits (dcoeff h) <= prec.
Proof.
  destruct (Z.eq_dec a 0) as [->|Ha].
  - eexists. split; [reflexivity|]. simpl. split; [lia|]. vm_compute. discriminate.
  - destruct (div_shape (Dec.of_Z a) (Dec.of_Z 100)) as (r & Hr & H1 & H2 & _).
    + simpl. lia.
    + simpl. lia.
    + exists r. repeat split; [assumption|lia|assumption].
Qed.

(** Below 10^28 the division by 100 is exact. *)
Lemma div_by_100_exact a h :
  Z.abs a < 10 ^ prec ->
  Dec.div (Dec.of_Z a) (Dec.of_Z 100) = Ok h ->
  (value h == a # 100)%Q.
Proof.
  intros Hbound. destruct (Z.eq_dec a 0) as [->|Ha].
  - intros H. injection H as <-. reflexivity.
  - unfold Dec.div, Dec.of_Z. cbn [dcoeff dexp dsign].
    change (Z.abs 100 =? 0) with false. cbv iota.
    destruct (Z.eqb_spec (Z.abs a) 0) as [E|_]; [lia|].
    set (x := Z.abs a) in *. assert (Hx : 0 < x) by (unfold x; lia).
    change (ndigits (Z.abs 100)) with 3. change (Z.abs 100) with 100.
    assert (Hnx : ndigits x <= prec) by (apply ndigits_le; unfold prec in *; lia).
    pose proof (ndigits_pos x) as Hnx1.
    set (shift := 3 - ndigits x + prec + 1).
    assert (Hshift : 4 <= shift) by (unfold shift; lia).
    destruct (Z.leb_spec 0 shift) as [_|?]; [|lia].
    assert (Hsplit : 10 ^ shift = 10 ^ (shift - 2) * 100).
    { replace shift with ((shift - 2) + 2) at 1 by lia.
      rewrite Z.pow_add_r by lia. reflexivity. }
    assert (Hp : 0 < 10 ^ (shift - 2)) by (apply Z.pow_pos_nonneg; lia).
    rewrite Hsplit, Z.mul_assoc, Z.mod_mul, Z.div_mul by lia.
    change (0 =? 0) with true. cbv iota.
    change (0 - 0) with 0. rewrite !Z.sub_0_l.
    replace (Z.to_nat (- - shift)) with (Z.to_nat shift) by (f_equal; lia).
    change (100 <? 0) with false.
    destruct (strip_zeros _ _ _ _) as [c' e'] eqn:Hstrip.
    assert (Hq : 0 < x * 10 ^ (shift - 2)) by lia.
    destruct (strip_zeros_shape _ _ _ _ _ _ Hq Hstrip) as (Hc' & _ & Hge & Hval & Hstop).
    assert (Hle : e' <= 0) by (eapply strip_zeros_le; [|exact Hstrip]; lia).
    replace (e' - _) with (e' + shift) in Hval by lia.
    assert (Hpow : forall k, 0 <= k -> 0 < 10 ^ k)
      by (intros; apply Z.pow_pos_nonneg; lia).
    assert (He' : - 2 <= e').
    { destruct (Z.ltb_spec e' (- 2)) as [Hlt|]; [exfalso|lia].
      apply Hstop; [rewrite Z2Nat.id; lia | lia |].
      assert (H : c' = x * 10 ^ (- 2 - e')).
      { apply Z.mul_reg_r with (10 ^ (e' + shift)).
        - pose proof (Hpow (e' + shift)); lia.
        - rewrite <- Hval, <- Z.mul_assoc, <- Z.pow_add_r by lia.
          f_equal. f_equal. lia. }
      replace (- 2 - e') with (Z.succ (- 3 - e')) in H by lia.
      rewrite Z.pow_succ_r in H by lia.
      rewrite H.
      replace (x * (10 * 10 ^ (-3 - e'))) with (x * 10 ^ (-3 - e') * 10) by lia.
      apply Z.mod_mul. lia. }
    assert (Hx' : x = c' * 10 ^ (e' + 2)).
    { apply Z.mul_reg_r with (10 ^ (shift - 2)); [lia|].
      rewrite Hval, <- Z.mul_assoc, <- Z.pow_add_r by lia.
      f_equal. f_equal. lia. }
    assert (Hc'small : c' <= x).
    { rewrite Hx'. assert (0 < 10 ^ (e' + 2)) by (apply Z.pow_pos_nonneg; lia). nia. }
    rewrite dec_fix_small by (apply ndigits_le; unfold prec in *; lia).
    intros H. injection H as <-.
    unfold value. cbn [dcoeff dexp dsign]. rewrite xorb_false_r.
    assert (Hcases : e' = -2 \/ e' = -1 \/ e' = 0) by lia.
    assert (Ha' : a = if a <? 0 then - x else x)
      by (unfold x; destruct (Z.ltb_spec a 0); lia).
    rewrite Ha' at 2. rewrite Hx'.
    destruct Hcases as [-> | [-> | ->]]; destruct (a <? 0);
      unfold Qeq; simpl; lia.
Qed.

(** ** Decimal arithmetic: the quotient rounded to five places *)

Lemma round_half_even_quotient c k : round_half_even c k = round_quotient c (10 ^ k).
Proof. reflexivity. Qed.

(** [round_quotient] returns the nearest integer, the even one on a tie. *)
Lemma round_quotient_nearest n d : 0 < d -> nearest_even n d (round_quotient n d).
Proof.
  intros Hd. unfold nearest_even, round_quotient.
  pose proof (Z.div_mod n d ltac:(lia)) as Hdm.
  pose proof (Z.mod_pos_bound n d Hd) as Hr.
  set (q := n / d) in *. set (r := n mod d) in *.
  destruct (Z.ltb_spec d (2 * r)) as [H1|H1]; cbn [orb].
  - left. nia.
  - destruct (Z.eqb_spec (2 * r) d) as [H2|H2]; cbn [andb].
    + destruct (Z.odd q) eqn:Hodd.
      * right. split; [nia|].
        rewrite Z.even_add, <- Z.negb_odd, Hodd. reflexivity.
      * right. split; [nia|]. rewrite <- Z.negb_odd, Hodd. reflexivity.
    + left. nia.
Qed.

(** There is only one such integer. *)
Lemma nearest_even_unique n d t1 t2 :
  0 < d -> nearest_even n d t1 -> nearest_even n d t2 -> t1 = t2.
Proof.
  intros Hd H1 H2.
  assert (Hclose : - 1 <= t1 - t2 <= 1).
  { assert (2 * Z.abs (t1 * d - n) <= d) by (destruct H1 as [?|[? _]]; lia).
    assert (2 * Z.abs (t2 * d - n) <= d) by (destruct H2 as [?|[? _]]; lia).
    split; nia. }
  destruct (Z.eq_dec t1 t2) as [|Hne]; [assumption|exfalso].
  assert (Hties : 2 * Z.abs (t1 * d - n) = d /\ 2 * Z.abs (t2 * d - n) = d).
  { assert (2 * Z.abs (t1 * d - n) <= d) by (destruct H1 as [?|[? _]]; lia).
    assert (2 * Z.abs (t2 * d - n) <= d) by (destruct H2 as [?|[? _]]; lia).
    assert (t1 = t2 + 1 \/ t2 = t1 + 1) as [->| ->] by lia; split; nia. }
  destruct Hties as (E1 & E2).
  destruct H1 as [?|[_ Hev1]]; [lia|]. destruct H2 as [?|[_ Hev2]]; [lia|].
  assert (t1 = t2 + 1 \/ t2 = t1 + 1) as [->| ->] by lia.
  - rewrite Z.even_add, Hev2 in Hev1. discriminate.
  - rewrite Z.even_add, Hev1 in Hev2. discriminate.
Qed.

Lemma round_quotient_tie_even n d :
  0 < d -> 2 * Z.abs (round_quotient n d * d - n) = d ->
  Z.even (round_quotient n d) = true.
Proof.
  intros Hd H. destruct (round_quotient_nearest n d Hd) as [?|[_ ?]]; [lia|assumption].
Qed.

(** Rounding to the precision keeps the sign and moves the coefficient by
    at most half a unit of the last digit kept. *)
Lemma dec_fix_accuracy s c e :
  0 < c ->
  exists c' g,
    dec_fix (mkDec s c e) = mkDec s c' (e + g) /\
    0 < c' /\ ndigits c' <= prec /\
    ((ndigits c <= prec /\ c' = c /\ g = 0) \/
     (prec < ndigits c /\ ndigits c - prec <= g /\
      2 * Z.abs (c' * 10 ^ g - c) <= 10 ^ (ndigits c - prec))).
Proof.
  intros Hc. unfold dec_fix. cbn [dcoeff dsign dexp].
  destruct (Z.eqb_spec c 0) as [->|_]; [lia|].
  destruct (ndigits_spec c Hc) as (Hn1 & Hlo & Hhi).
  destruct (Z.ltb_spec prec (ndigits c)) as [Hbig|Hsmall].
  2:{ exists c, 0. rewrite Z.add_0_r. repeat split; lia. }
  set (n := ndigits c) in *. set (k := n - prec).
  assert (Hk : 0 < k) by (unfold k; lia).
  assert (Hp : 0 < 10 ^ k) by (apply Z.pow_pos_nonneg; lia).
  assert (Hq : 10 ^ (prec - 1) <= c / 10 ^ k < 10 ^ prec).
  { split.
    - apply Z.div_le_lower_bound; [lia|].
      rewrite <- Z.pow_add_r by (unfold prec; lia).
      replace (k + (prec - 1)) with (n - 1) by (unfold k; lia). lia.
    - apply Z.div_lt_upper_bound; [lia|].
      rewrite <- Z.pow_add_r by (unfold prec; lia).
      replace (k + prec) with n by (unfold k; lia). lia. }
  assert (H27 : 0 < 10 ^ (prec - 1)) by (apply Z.pow_pos_nonneg; unfold prec; lia).
  pose proof (round_half_even_bounds c k) as (Hrlo & Hrhi).
  pose proof (round_quotient_nearest c (10 ^ k) Hp) as Hnear.
  rewrite <- round_half_even_quotient in Hnear.
  set (c' := round_half_even c k) in *.
  assert (Herr : 2 * Z.abs (c' * 10 ^ k - c) <= 10 ^ k)
    by (destruct Hnear as [?|[? _]]; lia).
  destruct (Z.ltb_spec prec (ndigits c')) as [Hcarry|Hfit].
  - assert (H28 : 10 ^ prec <= c') by (apply ndigits_gt_inv; unfold prec in *; lia).
    assert (Hc' : c' = 10 ^ prec) by lia.
    assert (Hdiv : c' / 10 = 10 ^ (prec - 1)) by (rewrite Hc'; reflexivity).
    exists (c' / 10), (k + 1). rewrite Z.add_assoc. split; [reflexivity|].
    rewrite Hdiv.
    split; [lia|]. split; [apply ndigits_le; unfold prec; simpl; lia|].
    right. split; [lia|]. split; [unfold k; lia|].
    replace (10 ^ (prec - 1) * 10 ^ (k + 1)) with (c' * 10 ^ k); [exact Herr|].
    rewrite Hc', Z.pow_add_r by lia.
    change (10 ^ prec) with (10 ^ (prec - 1) * 10). change (10 ^ 1) with 10. ring.
  - exists c', k. split; [reflexivity|]. split; [lia|]. split; [assumption|].
    right. split; [lia|]. split; [unfold k; lia|exact Herr].
Qed.

Lemma pow10_le_100 k : 0 <= k <= 2 -> 10 ^ k <= 100.
Proof.
  intros H. assert (k = 0 \/ k = 1 \/ k = 2) as [->|[->| ->]] by lia; simpl; lia.
Qed.

(** The quotient of two integers, the dividend below 10^21: the result
    is within 51 units of the 29th or 30th digit of the true quotient,
    and equal to it when the true quotient ends in three zeros there. *)
Lemma div_accuracy sa sb x y :
  0 < x -> 0 < y -> x < 10 ^ 21 ->
  let s := ndigits y - ndigits x + prec + 1 in
  exists c e,
    Dec.div (mkDec sa x 0) (mkDec sb y 0) = Ok (mkDec (xorb sa sb) c e) /\
    0 < c /\ ndigits c <= prec /\ - s <= e /\
    Z.abs (c * 10 ^ (e + s) * y - x * 10 ^ s) <= 51 * y /\
    (forall t, 3 <= t -> (x * 10 ^ s) mod (y * 10 ^ t) = 0 ->
               c * 10 ^ (e + s) * y = x * 10 ^ s).
Proof.
  intros Hx Hy Hbound s.
  assert (Hnx : ndigits x <= 21) by (apply ndigits_le; lia).
  pose proof (ndigits_pos y) as Hny.
  assert (Hs : 9 <= s) by (unfold s, prec; lia).
  pose proof (div_operands_bounds x y Hx Hy) as Hops. cbv zeta in Hops.
  fold s in Hops.
  destruct (Z.leb_spec 0 s) as [_|?]; [|lia].
  destruct Hops as (_ & Hlo & Hhi).
  unfold Dec.div. cbn [dcoeff dexp dsign]. fold s.
  destruct (Z.eqb_spec y 0) as [?|_]; [lia|].
  destruct (Z.eqb_spec x 0) as [?|_]; [lia|].
  destruct (Z.leb_spec 0 s) as [_|?]; [|lia].
  set (N := x * 10 ^ s) in *.
  pose proof (Z.div_mod N y ltac:(lia)) as Hdm.
  pose proof (Z.mod_pos_bound N y Hy) as Hrem.
  assert (Hq : 10 ^ prec <= N / y < 10 ^ (prec + 2)).
  { split; [apply Z.div_le_lower_bound | apply Z.div_lt_upper_bound]; lia. }
  set (q := N / y) in *. set (rem := N mod y) in *.
  unfold prec in Hq. change (28 + 2) with 30 in Hq.
  assert (Hqpos : 0 < q) by lia.
  change (0 - 0) with 0.
  set (e0 := 0 - s). assert (He0 : e0 = - s) by (unfold e0; lia).
  destruct (Z.eqb_spec rem 0) as [Hexact|Hinexact].
  - (* the quotient is an integer *)
    destruct (strip_zeros _ _ q e0) as [cs es] eqn:Hstrip.
    destruct (strip_zeros_shape _ _ _ _ _ _ Hqpos Hstrip)
      as (Hcs & Hnd & Hge & Hval & Hstop).
    assert (Hle : es <= 0) by (eapply strip_zeros_le; [|exact Hstrip]; lia).
    replace (es - e0) with (es + s) in Hval by lia.
    assert (Hpi : 0 < 10 ^ (es + s)) by (apply Z.pow_pos_nonneg; lia).
    destruct (dec_fix_accuracy (xorb sa sb) cs es Hcs)
      as (c & g & Hfix & Hc & Hdig & Hcase).
    exists c, (es + g). rewrite Hfix.
    split; [reflexivity|]. split; [assumption|]. split; [assumption|].
    destruct Hcase as [(_ & -> & ->) | (Hbig & Hg & Herr)].
    + rewrite Z.add_0_r. split; [lia|].
      assert (cs * 10 ^ (es + s) * y = N) by nia.
      split; [lia | auto].
    + assert (Hnq : ndigits q <= 30) by (apply ndigits_le; lia).
      set (k := ndigits cs - prec) in *.
      assert (Hk : 1 <= k /\ k + (es + s) <= 2) by (unfold k, prec in *; lia).
      assert (Hg0 : 0 <= g) by lia.
      replace (es + g + s) with (g + (es + s)) by lia.
      rewrite Z.pow_add_r by lia.
      assert (Hpk : 10 ^ k * 10 ^ (es + s) <= 100).
      { rewrite <- Z.pow_add_r by lia. apply pow10_le_100. lia. }
      split; [lia|]. split.
      * replace (c * (10 ^ g * 10 ^ (es + s)) * y - N)
          with ((c * 10 ^ g - cs) * (10 ^ (es + s) * y))
          by (rewrite Hdm, Hexact, Hval; ring).
        rewrite Z.abs_mul, (Z.abs_eq (10 ^ (es + s) * y))
          by (apply Z.mul_nonneg_nonneg; lia).
        pose proof (Z.abs_nonneg (c * 10 ^ g - cs)) as HA.
        revert Herr Hpk Hpi HA Hy.
        generalize (Z.abs (c * 10 ^ g - cs)) (10 ^ (es + s)) (10 ^ k).
        clear. intros A P K Herr Hpk Hpi HA Hy.
        assert (A * P <= 50) by nia. nia.
      * intros t Ht Hdiv. exfalso.
        assert (Hes : es < 0) by lia.
        apply Hstop; [rewrite Z2Nat.id; lia | lia |].
        assert (Hq100 : q mod 100 = 0).
        { assert (Hqt : q mod 10 ^ t = 0).
          { replace N with (y * q) in Hdiv by lia.
            rewrite Z.mul_mod_distr_l in Hdiv; [nia | | lia].
            apply Z.neq_sym, Z.lt_neq, Z.pow_pos_nonneg; lia. }
          apply Z.mod_divide in Hqt;
            [|apply Z.neq_sym, Z.lt_neq, Z.pow_pos_nonneg; lia].
          destruct Hqt as (w & Hw).
          replace t with ((t - 2) + 2) in Hw by lia.
          rewrite Z.pow_add_r in Hw by lia. change (10 ^ 2) with 100 in Hw.
          rewrite Hw, Z.mul_assoc. apply Z.mod_mul. lia. }
        assert (es + s = 0 \/ es + s = 1) as [Hi|Hi] by lia;
          rewrite Hi in Hval;
          [change (10 ^ 0) with 1 in Hval | change (10 ^ 1) with 10 in Hval].
        -- rewrite Hval in Hq100.
           pose proof (Z.div_mod cs 10 ltac:(lia)).
           pose proof (Z.mod_pos_bound cs 10 ltac:(lia)).
           pose proof (Z.div_mod (cs * 1) 100 ltac:(lia)). lia.
        -- rewrite Hval in Hq100.
           pose proof (Z.div_mod cs 10 ltac:(lia)).
           pose proof (Z.mod_pos_bound cs 10 ltac:(lia)).
           pose proof (Z.div_mod (cs * 10) 100 ltac:(lia)). lia.
  - (* the quotient is truncated: a sticky digit stands for the rest *)
    set (Q := if q mod 5 =? 0 then q + 1 else q).
    assert (HQ : q <= Q <= q + 1 /\ Q < 10 ^ 30).
    { unfold Q. destruct (Z.eqb_spec (q mod 5) 0) as [H5|H5]; [|lia].
      pose proof (Z.div_mod q 5 ltac:(lia)). lia. }
    assert (HQpos : 0 < Q) by lia.
    destruct (dec_fix_accuracy (xorb sa sb) Q e0 HQpos)
      as (c & g & Hfix & Hc & Hdig & Hcase).
    exists c, (e0 + g). rewrite Hfix.
    split; [reflexivity|]. split; [assumption|]. split; [assumption|].
    assert (Hsticky : Z.abs (Q * y - N) <= y).
    { revert Hdm Hrem Hinexact HQ. generalize Q q rem N. clear.
      intros Q q rem N Hdm Hrem Hinexact ((H1 & H2) & _).
      assert (Q = q \/ Q = q + 1) as [-> | ->] by lia; nia. }
    assert (Hg0 : 0 <= g) by lia.
    replace (e0 + g + s) with g by lia.
    split; [lia|]. split.
    + destruct Hcase as [(_ & -> & ->) | (Hbig & Hg & Herr)].
      * change (10 ^ 0) with 1. rewrite Z.mul_1_r. lia.
      * assert (HnQ : ndigits Q <= 30) by (apply ndigits_le; lia).
        assert (Hpk : 10 ^ (ndigits Q - prec) <= 100)
          by (apply pow10_le_100; unfold prec in *; lia).
        replace (c * 10 ^ g * y - N)
          with ((c * 10 ^ g - Q) * y + (Q * y - N)) by ring.
        revert Herr Hpk Hsticky Hy.
        generalize (c * 10 ^ g - Q) (Q * y - N) (10 ^ (ndigits Q - prec)).
        clear. intros A B K Herr Hpk Hsticky Hy.
        assert (Z.abs (A * y) <= 50 * y) by (rewrite Z.abs_mul; nia).
        lia.
    + intros t Ht Hdiv. exfalso. apply Hinexact.
      apply Z.mod_divide in Hdiv.
      * destruct Hdiv as (w & Hw). unfold rem. rewrite Hw.
        replace (w * (y * 10 ^ t)) with (w * 10 ^ t * y) by ring.
        apply Z.mod_mul. lia.
      * assert (0 < 10 ^ t) by (apply Z.pow_pos_nonneg; lia). nia.
Qed.

(** A number within 51 units of the quotient, scaled far enough, rounds
    like the quotient. *)
Lemma padded_is_exact C x5 y Pj A2 :
  0 < y -> 102 * y < Pj ->
  A2 = Pj * (C * y - x5) -> Z.abs A2 <= 51 * y ->
  nearest_even x5 y C.
Proof.
  intros Hy Hgap -> Herr. left.
  assert (C * y - x5 = 0) by nia. lia.
Qed.

Lemma rounded_twice_is_nearest C c x5 y Pm Pg A2 :
  0 < y -> 0 < Pm -> 0 < Pg -> 102 * y < Pm * Pg ->
  nearest_even c Pm C ->
  A2 = c * Pg * y - x5 * (Pm * Pg) ->
  Z.abs A2 <= 51 * y ->
  (2 * Z.abs (C * y - x5) = y -> A2 = 0) ->
  nearest_even x5 y C.
Proof.
  intros Hy HPm HPg Hgap Hnear HA2 Herr Htie.
  set (u := C * y - x5) in *. set (A1 := C * Pm - c) in *.
  assert (Hsum : Pm * Pg * u = A1 * Pg * y + A2) by (unfold u, A1; lia).
  assert (H1 : 2 * Z.abs A1 <= Pm) by (destruct Hnear as [?|[? _]]; lia).
  assert (Hle : 2 * Z.abs u <= y).
  { assert (2 * (Pm * Pg) * Z.abs u <= Pm * Pg * y + 102 * y).
    { replace (2 * (Pm * Pg) * Z.abs u) with (2 * Z.abs (Pm * Pg * u))
        by (rewrite Z.abs_mul, (Z.abs_eq (Pm * Pg)); nia).
      rewrite Hsum.
      assert (Z.abs (A1 * Pg * y) = Z.abs A1 * Pg * y)
        by (rewrite !Z.abs_mul, (Z.abs_eq Pg), (Z.abs_eq y); lia).
      assert (2 * (Z.abs A1 * Pg * y) <= Pm * Pg * y) by nia.
      lia. }
    nia. }
  destruct (Z.eq_dec (2 * Z.abs u) y) as [Heq|Hne]; [|left; lia].
  right. split; [assumption|].
  specialize (Htie Heq). subst A2. rewrite Htie, Z.add_0_r in Hsum.
  assert (Htie1 : 2 * Z.abs A1 = Pm).
  { assert (2 * Z.abs (Pm * Pg * u) = 2 * Z.abs (A1 * Pg * y)) by (rewrite Hsum; reflexivity).
    rewrite !Z.abs_mul, (Z.abs_eq Pg), (Z.abs_eq y), (Z.abs_eq Pm) in H by lia.
    nia. }
  destruct Hnear as [?|[_ ?]]; [lia|assumption].
Qed.

(** A quotient half-way between two integers is a multiple of one half. *)
Lemma tie_divides x5 y C Pj1 :
  0 < y -> 0 < Pj1 -> 2 * Z.abs (C * y - x5) = y ->
  (x5 * (10 * Pj1)) mod (y * Pj1) = 0.
Proof.
  intros Hy HP Htie.
  assert (exists w, x5 * 10 = w * y) as (w & Hw).
  { destruct (Z.abs_spec (C * y - x5)) as [(_ & E)|(_ & E)].
    - exists (10 * C - 5). nia.
    - exists (10 * C + 5). nia. }
  replace (x5 * (10 * Pj1)) with (w * (y * Pj1)) by nia.
  apply Z.mod_mul. nia.
Qed.

(** Rounding the 28-digit quotient to five places gives what rounding
    the true quotient gives. *)
Lemma unit_price_exact la a :
  la <> 0 -> a <> 0 -> Z.abs la < 10 ^ 21 ->
  exists q,
    Dec.div (Dec.of_Z la) (Dec.of_Z a) = Ok q /\
    Dec.round (Dec.abs q) 5
    = Ok (mkDec false (round_quotient (Z.abs la * 10 ^ 5) (Z.abs a)) (- 5)).
Proof.
  intros Hla Ha Hbound. unfold Dec.of_Z.
  set (x := Z.abs la) in *. set (y := Z.abs a) in *.
  assert (Hx : 0 < x) by (unfold x; lia). assert (Hy : 0 < y) by (unfold y; lia).
  destruct (div_accuracy (la <? 0) (a <? 0) x y Hx Hy Hbound)
    as (c & e & Hdiv & Hc & Hdig & Hge & Herr & Hexact).
  destruct (div_shape (mkDec (la <? 0) x 0) (mkDec (a <? 0) y 0) Hx Hy)
    as (r & Hr & _ & _ & Htop & _).
  rewrite Hdiv in Hr. injection Hr as <-.
  unfold top, adjusted in Htop. cbn [dcoeff dexp] in Htop.
  assert (Hnx : ndigits x <= 21) by (apply ndigits_le; lia).
  destruct (ndigits_spec y Hy) as (Hny & _ & Hyhi).
  set (s := ndigits y - ndigits x + prec + 1) in *.
  set (j := s - 5).
  assert (Hj : ndigits y + 3 <= j) by (unfold j, s, prec; lia).
  assert (Hgap : 102 * y < 10 ^ j).
  { apply Z.lt_le_trans with (1000 * 10 ^ ndigits y); [lia|].
    change 1000 with (10 ^ 3). rewrite <- Z.pow_add_r by lia.
    apply Z.pow_le_mono_r; lia. }
  assert (Hxs : x * 10 ^ s = x * 10 ^ 5 * 10 ^ j).
  { unfold j. rewrite <- Z.mul_assoc, <- Z.pow_add_r by lia. f_equal. f_equal. lia. }
  exists (mkDec (xorb (la <? 0) (a <? 0)) c e). split; [exact Hdiv|].
  rewrite abs_shape by assumption. cbn [dcoeff dexp].
  unfold Dec.round, quantize, adjusted. cbv zeta. cbn [dcoeff dexp dsign].
  change (Z.opp 5) with (-5).
  destruct (Z.eqb_spec c 0) as [?|_]; [lia|].
  destruct (Z.ltb_spec prec (ndigits c + e - 1 - - 5 + 1)) as [?|_];
    [unfold prec in *; lia|].
  assert (Hcoeff : dcoeff (rescale (mkDec false c e) (- 5))
                   = round_quotient (x * 10 ^ 5) y).
  { apply (nearest_even_unique (x * 10 ^ 5) y); [assumption| |
      now apply round_quotient_nearest].
    unfold rescale. cbn [dcoeff dexp dsign].
    destruct (Z.eqb_spec c 0) as [?|_]; [lia|].
    destruct (Z.leb_spec (- 5) e) as [Hpad|Hround]; cbn [dcoeff].
    - apply (padded_is_exact _ _ _ (10 ^ j) (c * 10 ^ (e + s) * y - x * 10 ^ s));
        try assumption.
      rewrite Hxs. replace (e + s) with ((e - - 5) + j) by (unfold j; lia).
      rewrite Z.pow_add_r by lia. ring.
    - rewrite round_half_even_quotient.
      set (m := - 5 - e). set (g := e + s) in *.
      assert (Hm : 1 <= m) by (unfold m; lia).
      assert (Hg : 0 <= g) by (unfold g; lia).
      assert (Hjmg : 10 ^ j = 10 ^ m * 10 ^ g).
      { rewrite <- Z.pow_add_r by lia. f_equal. unfold j, m, g. lia. }
      assert (HPm : 0 < 10 ^ m) by (apply Z.pow_pos_nonneg; lia).
      assert (HPg : 0 < 10 ^ g) by (apply Z.pow_pos_nonneg; lia).
      apply (rounded_twice_is_nearest _ c _ _ (10 ^ m) (10 ^ g)
               (c * 10 ^ g * y - x * 10 ^ s)); try assumption.
      + rewrite <- Hjmg. assumption.
      + now apply round_quotient_nearest.
      + rewrite Hxs, Hjmg. reflexivity.
      + intros Htie.
        assert (c * 10 ^ g * y = x * 10 ^ s); [|lia].
        apply (Hexact (j - 1)); [lia|].
        rewrite Hxs. replace j with (Z.succ (j - 1)) at 1 by lia.
        rewrite Z.pow_succ_r by lia.
        apply tie_divides with (C := round_quotient c (10 ^ m));
          [assumption | apply Z.pow_pos_nonneg; lia | exact Htie]. }
  assert (Hsmall : ndigits (round_quotient (x * 10 ^ 5) y) <= prec).
  { apply ndigits_le; [unfold prec; lia|].
    assert (round_quotient (x * 10 ^ 5) y <= x * 10 ^ 5 / y + 1)
      by (unfold round_quotient; destruct (_ || _); lia).
    assert (x * 10 ^ 5 / y <= x * 10 ^ 5).
    { apply Z.div_le_upper_bound; [lia|]. nia. }
    unfold prec. lia. }
  destruct (rescale (mkDec false c e) (- 5)) as [rs rc re] eqn:Hres.
  cbn [dcoeff] in Hcoeff |- *. subst rc.
  assert (Hrs : rs = false /\ re = - 5).
  { unfold rescale in Hres. cbn [dcoeff dexp dsign] in Hres.
    destruct (c =? 0); [|destruct (- 5 <=? e)]; injection Hres; auto. }
  destruct Hrs as (-> & ->).
  destruct (Z.ltb_spec prec (ndigits (round_quotient (x * 10 ^ 5) y))); [lia|].
  rewrite dec_fix_small by assumption. reflexivity.
Qed.

(** ** One record, one entry *)

(** An iteration only appends: its outcome on any list built so far is
    its outcome on the empty list, put behind that list. *)
Lemma extract_body_frame lib self fp entries t :
  extract_body lib self fp entries t =
  (r <- extract_body lib self fp [] t ;; Ok (entries ++ r)%list).
Proof.
  unfold extract_body. step_binds; reflexivity.
Qed.

(** Every path through the loop body appends exactly one entry. *)
Lemma extract_body_single lib self fp t r :
  extract_body lib self fp [] t = Ok r -> exists e, r = [e].
Proof.
  unfold extract_body. step_binds; intros H; try discriminate H;
    injection H as <-; eauto.
Qed.

(** The loop appends, in order, the entry of each record. *)
Lemma extract_loop_spec lib self fp items :
  forall entries out,
    extract_loop lib self fp items entries = Ok out ->
    exists produced,
      out = (entries ++ produced)%list /\
      List.length produced = List.length items /\
      forall i t, nth_error items i = Some t ->
        exists e, extract_body lib self fp [] t = Ok [e] /\
                  nth_error produced i = Some e.
Proof.
  induction items as [|t items IH]; intros entries out H; simpl in H.
  - injection H as <-. exists []. rewrite app_nil_r. repeat split.
    intros [|i] t' Hi; discriminate Hi.
  - apply bind_Ok_inv in H as (entries' & Hbody & Hrest).
    rewrite extract_body_frame in Hbody.
    apply bind_Ok_inv in Hbody as (r & Hr & Hentries').
    injection Hentries' as <-.
    destruct (extract_body_single _ _ _ _ _ Hr) as (e & ->).
    destruct (IH _ _ Hrest) as (produced & -> & Hlen & Hnth).
    exists (e :: produced). rewrite <- app_assoc. repeat split.
    + simpl. now rewrite Hlen.
    + intros [|i] t' Hi; simpl in Hi |- *.
      * injection Hi as <-. eauto.
      * now apply Hnth.
Qed.

(** A record on which the iteration raises makes the whole loop raise,
    wherever it stands in the list. *)
Lemma extract_loop_raises lib self fp items t :
  In t items ->
  (forall entries, exists e, extract_body lib self fp entries t = Raise e) ->
  forall entries, exists e, extract_loop lib self fp items entries = Raise e.
Proof.
  intros Hin Hbad. induction items as [|t' items IH]; [destruct Hin|].
  intros entries. simpl.
  destruct Hin as [-> | Hin].
  - destruct (Hbad entries) as (e & ->). simpl. eauto.
  - destruct (extract_body lib self fp entries t') as [entries'|e]; simpl; eauto.
Qed.

(** C7: when [extract] succeeds, the entries it returns are as many as
    the transaction records of the file, and the entry at index [i] is the
    one entry the loop body appends for the record at index [i]. *)
Theorem extract_one_entry_per_record lib self fp existing entries :
  extract lib self fp existing = Ok entries ->
  exists items,
    (transactions <- get_transactions lib fp ;; iter transactions) = Ok items /\
    List.length entries = List.length items /\
    forall i t, nth_error items i = Some t ->
      exists e, extract_body lib self fp [] t = Ok [e] /\
                nth_error entries i = Some e.
Proof.
  unfold extract. intros H.
  apply bind_Ok_inv in H as (transactions & Htx & H).
  apply bind_Ok_inv in H as (items & Hitems & Hloop).
  apply extract_loop_spec in Hloop as (produced & -> & Hlen & Hnth).
  exists items. rewrite Htx. cbn [bind]. auto.
Qed.

Lemma extract_one_entry_per_record_witness :
  exists entries,
    extract sample_march sample_importer sample_march_path None = Ok entries /\
    List.length entries = 4%nat /\
    exists items,
      (transactions <- get_transactions sample_march sample_march_path ;;
       iter transactions) = Ok items /\
      List.length entries = List.length items /\
      forall i t, nth_error items i = Some t ->
        exists e, extract_body sample_march sample_importer sample_march_path [] t
                  = Ok [e] /\
                  nth_error entries i = Some e.
Proof.
  eexists. split; [vm_compute; reflexivity|]. split; [reflexivity|].
  apply (extract_one_entry_per_record sample_march sample_importer
           sample_march_path None).
  vm_compute. reflexivity.
Defined.

(** ** What the output depends on *)

Section Agreement.

Variables lib1 lib2 : Library.
Variable self : Importer.

Hypothesis same_dates : forall s, fromisoformat lib1 s = fromisoformat lib2 s.
Hypothesis same_decimals :
  forall s, Decimal_of_string lib1 s = Decimal_of_string lib2 s.
Hypothesis same_str : forall v, container_str lib1 v = container_str lib2 v.

Lemma D_agree v : D lib1 v = D lib2 v.
Proof. destruct v; simpl; try reflexivity. now rewrite same_decimals. Qed.

Lemma str_agree v : str lib1 v = str lib2 v.
Proof. destruct v; simpl; try reflexivity; apply same_str. Qed.

Lemma parse_transaction_time_agree v :
  parse_transaction_time lib1 v = parse_transaction_time lib2 v.
Proof. destruct v; simpl; try reflexivity. now rewrite same_dates. Qed.

Lemma get_unit_price_agree t : get_unit_price lib1 t = get_unit_price lib2 t.
Proof.
  unfold get_unit_price.
  destruct (getitem t "local_currency"); [|reflexivity]. cbn [bind].
  destruct (getitem t "currency"); [|reflexivity]. cbn [bind].
  destruct (negb _); [|reflexivity].
  destruct (getitem t "local_amount"); [|reflexivity]. cbn [bind].
  destruct (negb _); [|reflexivity].
  destruct (getitem t "amount"); [|reflexivity]. cbn [bind].
  now rewrite !D_agree.
Qed.

Lemma extract_body_agree fp entries t :
  extract_body lib1 self fp entries t = extract_body lib2 self fp entries t.
Proof.
  unfold extract_body.
  destruct (extract_metadata t) as [metadata|]; [|reflexivity]. cbn [bind].
  destruct (getitem t "notes") as [notes|]; [|reflexivity]. cbn [bind].
  destruct (lower notes) as [lowered|]; [|reflexivity]. cbn [bind].
  destruct (getitem t "created") as [created|]; cbn [bind];
    rewrite ?parse_transaction_time_agree, ?get_unit_price_agree;
    destruct (String.eqb lowered "pin change"); try reflexivity;
    destruct (contains "decline_reason" t) as [[|]|]; cbn [bind];
      try reflexivity.
  - destruct (get_payee t) as [payee|]; [|reflexivity]. cbn [bind].
    destruct (getitem t "decline_reason") as [reason|]; [|reflexivity].
    cbn [bind]. now rewrite !str_agree.
  - destruct (parse_transaction_time lib2 created); [|reflexivity]. cbn [bind].
    destruct (get_unit_price lib2 t); [|reflexivity]. cbn [bind].
    destruct (get_payee t); [|reflexivity]. cbn [bind].
    destruct (get_narration t); [|reflexivity]. cbn [bind].
    destruct (getitem t "amount"); [|reflexivity]. cbn [bind].
    now rewrite D_agree.
Qed.

Lemma extract_loop_agree fp items :
  forall entries,
    extract_loop lib1 self fp items entries = extract_loop lib2 self fp items entries.
Proof.
  induction items as [|t items IH]; intros entries; simpl; [reflexivity|].
  rewrite extract_body_agree.
  destruct (extract_body lib2 self fp entries t); simpl; auto.
Qed.

End Agreement.

(** C8: [extract] keeps nothing between calls and reads nothing but the
    file it is given.  Two runs on a file whose MIME type and content
    have not changed return the same entries, or raise the same exception,
    whatever else has changed in between and whatever the framework hands
    over as the existing entries (the output of the first run included). *)
Theorem extract_repeatable lib1 lib2 self fp existing1 existing2 :
  guess_type lib1 fp = guess_type lib2 fp ->
  open_read lib1 fp = open_read lib2 fp ->
  (forall content, json_loads lib1 content = json_loads lib2 content) ->
  (forall s, fromisoformat lib1 s = fromisoformat lib2 s) ->
  (forall s, Decimal_of_string lib1 s = Decimal_of_string lib2 s) ->
  (forall v, container_str lib1 v = container_str lib2 v) ->
  extract lib1 self fp existing1 = extract lib2 self fp existing2.
Proof.
  intros Hmime Hopen Hjson Hdates Hdecimals Hstr.
  unfold extract, get_transactions. rewrite Hmime, Hopen.
  destruct (negb _); cbn [bind].
  - reflexivity.
  - destruct (open_read lib2 fp) as [content|]; [|reflexivity]. cbn [bind].
    rewrite Hjson.
    destruct (json_loads lib2 content) as [data|]; [|reflexivity]. cbn [bind].
    destruct (contains "transactions" data) as [has|]; [|reflexivity].
    cbn [bind].
    destruct (if has then getitem data "transactions" else Ok (JBool false))
      as [transactions|]; [|reflexivity].
    cbn [bind].
    destruct (iter transactions) as [items|]; [|reflexivity]. cbn [bind].
    now apply extract_loop_agree.
Qed.

Lemma extract_repeatable_witness :
  exists entries,
    extract sample_march sample_importer sample_march_path None = Ok entries /\
    extract sample_march_later sample_importer sample_march_path (Some entries)
    = Ok entries /\
    open_read sample_march "empty-object.json"
    <> open_read sample_march_later "empty-object.json".
Proof.
  eexists. split; [vm_compute; reflexivity|]. split; [|discriminate].
  rewrite <- (extract_repeatable sample_march sample_march_later sample_importer
                sample_march_path None (Some _));
    first [vm_compute; reflexivity | intros; reflexivity].
Defined.

(** ** Records without a counterparty *)

(** The metadata cannot be built without a counterparty mapping. *)
Lemma extract_metadata_needs_counterparty fields :
  dict_get fields "counterparty" = None \/
  dict_get fields "counterparty" = Some JNull ->
  exists e, extract_metadata (JObj fields) = Raise e.
Proof.
  intros H. unfold extract_metadata.
  assert (Hcp : getitem (JObj fields) "counterparty" = Raise KeyError \/
                getitem (JObj fields) "counterparty" = Ok JNull)
    by (simpl; destruct H as [-> | ->]; auto).
  do 6 (match goal with
        | |- context [bind (getitem ?t ?k) _] =>
            destruct (getitem t k); cbn [bind]; [|eauto]
        end).
  destruct Hcp as [-> | ->]; simpl; eauto.
Qed.

(** C10: a record whose [counterparty] key is absent, or whose
    counterparty is null, makes [extract] raise, whatever kind of record it
    is and wherever it stands in the file: no entries are returned. *)
Theorem counterparty_is_required lib self fp existing transactions items fields :
  get_transactions lib fp = Ok transactions ->
  iter transactions = Ok items ->
  In (JObj fields) items ->
  dict_get fields "counterparty" = None \/
  dict_get fields "counterparty" = Some JNull ->
  exists e, extract lib self fp existing = Raise e.
Proof.
  intros Htx Hitems Hin Hcp. unfold extract.
  rewrite Htx. cbn [bind]. rewrite Hitems. cbn [bind].
  apply extract_loop_raises with (t := JObj fields); [assumption|].
  intros entries. unfold extract_body.
  destruct (extract_metadata_needs_counterparty fields Hcp) as (e & ->).
  simpl. eauto.
Qed.

Lemma counterparty_is_required_witness :
  (exists e, extract sample_broken sample_importer sample_march_path None = Raise e)
  /\
  (exists e,
      extract sample_broken_null sample_importer sample_march_path None = Raise e).
Proof.
  split.
  - apply (counterparty_is_required sample_broken sample_importer
             sample_march_path None (JArr sample_broken_items) sample_broken_items
             (filter (fun kv => negb (String.eqb (fst kv) "counterparty"))
                (sample_base "PIN Change" "mastercard" 0 0 "GBP" "GBP"))).
    + vm_compute. reflexivity.
    + reflexivity.
    + right. left. reflexivity.
    + left. vm_compute. reflexivity.
  - apply (counterparty_is_required sample_broken_null sample_importer
             sample_march_path None (JArr sample_broken_null_items)
             sample_broken_null_items
             (dict_set (sample_base "" "mastercard" (-1250) (-1250) "GBP" "GBP")
                "counterparty" JNull)).
    + vm_compute. reflexivity.
    + reflexivity.
    + right. left. reflexivity.
    + right. vm_compute. reflexivity.
Defined.

(** ** The PIN-change branch *)

(** C6: a record whose notes read "pin change" in any letter case gets
    exactly one entry, a Note with the text "PIN Change" dated at the
    record's creation time: the date that [fromisoformat] reads in the
    string under ["created"].  Nothing is asked of the decline reason or
    of the scheme: the branch comes first. *)
Theorem pin_change_note lib self fp entries t notes metadata created d :
  getitem t "notes" = Ok (JStr notes) ->
  lower_string notes = "pin change" ->
  extract_metadata t = Ok metadata ->
  getitem t "created" = Ok (JStr created) ->
  fromisoformat lib created = Some d ->
  extract_body lib self fp entries t =
  Ok (entries ++
      [Note (new_metadata fp 0 metadata) d (importer_account self) "PIN Change"])%list.
Proof.
  intros Hnotes Hlow Hmeta Hcreated Hd. unfold extract_body.
  rewrite Hmeta, Hnotes. cbn [bind lower]. rewrite Hlow. cbn [bind].
  rewrite Hcreated. cbn [bind parse_transaction_time]. rewrite Hd. reflexivity.
Qed.

Lemma pin_change_note_witness :
  contains "decline_reason" sample_pin_change = Ok true /\
  getitem sample_pin_change "scheme" = Ok (JStr "uk_retail_pot") /\
  getitem sample_pin_change "created" = Ok (JStr sample_created) /\
  fromisoformat sample_lib sample_created = Some (mkDate 2024 3 9) /\
  exists metadata,
    extract_body sample_lib sample_importer "monzo.json" [] sample_pin_change =
    Ok [Note (new_metadata "monzo.json" 0 metadata) (mkDate 2024 3 9)
          "Assets:Monzo:Current" "PIN Change"].
Proof.
  split; [reflexivity|]. split; [reflexivity|].
  split; [reflexivity|]. split; [reflexivity|]. eexists.
  apply (pin_change_note sample_lib sample_importer "monzo.json" []
           sample_pin_change "PIN Change" _ sample_created).
  - reflexivity.
  - reflexivity.
  - vm_compute. reflexivity.
  - reflexivity.
  - reflexivity.
Defined.

(** ** Files that are not Monzo fetches *)

(** C3: on a file whose MIME type is not [application/json], or whose
    JSON object has no ["transactions"] key, [identify] answers [False]
    without raising, but [extract] does not: [get_transactions] hands it
    the [False] sentinel, and iterating over it raises a [TypeError]. *)
Theorem probes_on_foreign_files lib self fp existing :
  is_json_mimetype (guess_type lib fp) = false \/
  (exists content o,
      open_read lib fp = Ok content /\
      json_loads lib content = Ok (JObj o) /\
      dict_get o "transactions" = None) ->
  identify lib self fp = Ok false /\
  get_transactions lib fp = Ok (JBool false) /\
  extract lib self fp existing = Raise TypeError.
Proof.
  intros H.
  assert (Hid : get_account_id lib fp = Ok (JBool false)).
  { unfold get_account_id.
    destruct (is_json_mimetype (guess_type lib fp)) eqn:Hmime; [|reflexivity].
    destruct H as [H | (content & o & Hopen & Hload & Hkey)]; [discriminate H|].
    simpl. rewrite Hopen. cbn [bind]. rewrite Hload. cbn [bind getitem].
    rewrite Hkey. reflexivity. }
  assert (Htx : get_transactions lib fp = Ok (JBool false)).
  { unfold get_transactions.
    destruct (is_json_mimetype (guess_type lib fp)) eqn:Hmime; [|reflexivity].
    destruct H as [H | (content & o & Hopen & Hload & Hkey)]; [discriminate H|].
    simpl. rewrite Hopen. cbn [bind]. rewrite Hload. cbn [bind contains].
    unfold dict_mem. rewrite Hkey. reflexivity. }
  unfold identify, extract. rewrite Hid, Htx. auto.
Qed.

Lemma probes_on_foreign_files_witness :
  (identify sample_lib sample_importer "statement.csv" = Ok false /\
   get_transactions sample_lib "statement.csv" = Ok (JBool false) /\
   extract sample_lib sample_importer "statement.csv" None = Raise TypeError) /\
  (identify sample_lib sample_importer "empty-object.json" = Ok false /\
   get_transactions sample_lib "empty-object.json" = Ok (JBool false) /\
   extract sample_lib sample_importer "empty-object.json" None = Raise TypeError).
Proof.
  split.
  - apply (probes_on_foreign_files sample_lib sample_importer "statement.csv" None).
    left. reflexivity.
  - apply (probes_on_foreign_files sample_lib sample_importer "empty-object.json" None).
    right. exists "empty-object.json", []. repeat split; reflexivity.
Defined.

(** A JSON document that is not an object has no ["transactions"] key
    either, and there [identify] raises as well: the subscript fails with
    a [TypeError], which the handler for [KeyError] lets through. *)
Lemma identify_on_json_array :
  identify sample_lib sample_importer "array.json" = Raise TypeError /\
  extract sample_lib sample_importer "array.json" None = Raise TypeError.
Proof. split; reflexivity. Qed.

(** ** The payee *)

(** C9: on a record with a merchant field and a counterparty mapping, the
    payee is the merchant's name when the merchant is truthy, otherwise
    the counterparty's preferred name, otherwise the counterparty's name,
    otherwise [None]; and the Note of a declined record reads
    "<payee> transaction declined with reason <reason>" with that payee. *)
Theorem payee_resolution lib self fp entries fields merchant counterparty :
  dict_get fields "merchant" = Some merchant ->
  dict_get fields "counterparty" = Some (JObj counterparty) ->
  get_payee (JObj fields) =
    (if truthy merchant then getitem merchant "name"
     else Ok (counterparty_payee counterparty)) /\
  forall notes reason metadata created d,
    dict_get fields "notes" = Some (JStr notes) ->
    lower_string notes <> "pin change" ->
    dict_get fields "decline_reason" = Some reason ->
    extract_metadata (JObj fields) = Ok metadata ->
    dict_get fields "created" = Some created ->
    parse_transaction_time lib created = Ok d ->
    extract_body lib self fp entries (JObj fields) =
    (payee <- get_payee (JObj fields) ;;
     Ok (entries ++
         [Note (new_metadata fp 0 metadata) d (importer_account self)
            (str lib payee ++ " transaction declined with reason " ++
             str lib reason)])%list).
Proof.
  intros Hm Hcp. split.
  - unfold get_payee. cbn [getitem]. rewrite Hm. cbn [bind].
    destruct (truthy merchant); [reflexivity|].
    rewrite Hcp. cbn [bind contains getitem]. unfold counterparty_payee, dict_mem.
    destruct (dict_get counterparty "prefered_name"); cbn [bind]; [reflexivity|].
    destruct (dict_get counterparty "name"); reflexivity.
  - intros notes reason metadata created d Hnotes Hpin Hreason Hmeta Hcreated Hd.
    unfold extract_body. rewrite Hmeta. cbn [bind getitem]. rewrite Hnotes.
    cbn [bind lower].
    destruct (String.eqb_spec (lower_string notes) "pin change") as [Heq|_];
      [contradiction|].
    cbn [contains bind]. unfold dict_mem. rewrite Hreason.
    destruct (get_payee (JObj fields)) as [payee|e]; cbn [bind]; [|reflexivity].
    rewrite Hcreated. cbn [bind]. rewrite Hd. reflexivity.
Qed.

Lemma payee_resolution_witness :
  get_payee sample_declined_p2p = Ok (JStr "Alex") /\
  get_payee sample_general = Ok (JStr "Tesco") /\
  exists metadata,
    extract_body sample_lib sample_importer "monzo.json" [] sample_declined_p2p =
    Ok [Note (new_metadata "monzo.json" 0 metadata) (mkDate 2024 3 9)
          "Assets:Monzo:Current"
          "Alex transaction declined with reason INSUFFICIENT_FUNDS"].
Proof.
  split; [|split].
  - apply (proj1 (payee_resolution sample_lib sample_importer "monzo.json" []
                    sample_declined_p2p_fields JNull sample_p2p_counterparty
                    eq_refl eq_refl)).
  - apply (proj1 (payee_resolution sample_lib sample_importer "monzo.json" []
                    (sample_base "" "mastercard" (-1250) (-1250) "GBP" "GBP")
                    (JObj [("name", JStr "Tesco")]) [] eq_refl eq_refl)).
  - eexists.
    apply (proj2 (payee_resolution sample_lib sample_importer "monzo.json" []
                    sample_declined_p2p_fields JNull sample_p2p_counterparty
                    eq_refl eq_refl)
             "lunch" (JStr "INSUFFICIENT_FUNDS") _ (JStr sample_created)
             (mkDate 2024 3 9));
      first [reflexivity | discriminate | vm_compute; reflexivity].
Defined.

(** ** The two Transaction branches *)

(** What is left of the loop body once a record is known to be neither a
    PIN change nor declined, and its parts have been resolved. *)
Lemma transaction_branch lib self fp entries t notes scheme a c metadata
    created d fx payee narration :
  getitem t "notes" = Ok (JStr notes) ->
  lower_string notes <> "pin change" ->
  contains "decline_reason" t = Ok false ->
  extract_metadata t = Ok metadata ->
  getitem t "created" = Ok created ->
  parse_transaction_time lib created = Ok d ->
  get_unit_price lib t = Ok fx ->
  get_payee t = Ok payee ->
  get_narration t = Ok narration ->
  getitem t "amount" = Ok (JInt a) ->
  getitem t "currency" = Ok (JStr c) ->
  getitem t "scheme" = Ok scheme ->
  extract_body lib self fp entries t =
  (hundredth <- Dec.div (Dec.of_Z a) (Dec.of_Z 100) ;;
   let unit := mkAmount hundredth (JStr c) in
   let postings := [mkPosting (importer_account self) unit None fx None None] in
   state <-
     (if py_eq scheme (JStr "uk_retail_pot") then
        pot_metadata <- getitem t "metadata" ;;
        pot_id <- getitem pot_metadata "pot_id" ;;
        if hashable pot_id then
          negated <- Amount_neg unit ;;
          Ok (@None string, [pot_id],
              (postings ++
                 [mkPosting (importer_account self) negated None None None None])%list)
        else Raise TypeError
      else Ok (Some FLAG_WARNING, [], postings)) ;;
   let '(_, link, postings) := state in
   Ok (entries ++
       [Transaction (new_metadata fp 0 metadata) d FLAG_OKAY payee narration []
          link postings])%list).
Proof.
  intros Hnotes Hpin Hdecl Hmeta Hcreated Hd Hfx Hpayee Hnarr Hamount Hcur Hscheme.
  unfold extract_body. rewrite Hmeta, Hnotes. cbn [bind lower].
  destruct (String.eqb_spec (lower_string notes) "pin change") as [Heq|_];
    [contradiction|].
  rewrite Hdecl. cbn [bind]. rewrite Hcreated. cbn [bind]. rewrite Hd. cbn [bind].
  rewrite Hfx. cbn [bind]. rewrite Hpayee. cbn [bind]. rewrite Hnarr. cbn [bind].
  rewrite Hamount. cbn [bind D].
  destruct (Dec.div (Dec.of_Z a) (Dec.of_Z 100)) as [hundredth|e]; cbn [bind];
    [|reflexivity].
  rewrite Hcur. cbn [bind new_Amount]. rewrite Hscheme. reflexivity.
Qed.

(** C1: a record of the general branch gets one Transaction with one
    posting, on the importer's account, of the record's amount divided by
    100 (exactly, below 10^28 minor units) in the record's currency.  The
    Transaction is flagged '*' and its posting has no flag: the warning
    flag the body prepares for review is not attached to anything. *)
Theorem general_transaction_entry lib self fp entries t notes scheme a c
    metadata created d fx payee narration :
  getitem t "notes" = Ok (JStr notes) ->
  lower_string notes <> "pin change" ->
  contains "decline_reason" t = Ok false ->
  extract_metadata t = Ok metadata ->
  getitem t "created" = Ok created ->
  parse_transaction_time lib created = Ok d ->
  get_unit_price lib t = Ok fx ->
  get_payee t = Ok payee ->
  get_narration t = Ok narration ->
  getitem t "amount" = Ok (JInt a) ->
  getitem t "currency" = Ok (JStr c) ->
  getitem t "scheme" = Ok scheme ->
  py_eq scheme (JStr "uk_retail_pot") = false ->
  exists hundredth e,
    Dec.div (Dec.of_Z a) (Dec.of_Z 100) = Ok hundredth /\
    (Z.abs a < 10 ^ 28 -> (Dec.value hundredth == a # 100)%Q) /\
    e = Transaction (new_metadata fp 0 metadata) d FLAG_OKAY payee narration [] []
          [mkPosting (importer_account self) (mkAmount hundredth (JStr c))
             None fx None None] /\
    extract_body lib self fp entries t = Ok (entries ++ [e])%list /\
    review_flagged e = false.
Proof.
  intros Hnotes Hpin Hdecl Hmeta Hcreated Hd Hfx Hpayee Hnarr Hamount Hcur
    Hscheme Hpot.
  destruct (div_by_100 a) as (hundredth & Hdiv & _).
  exists hundredth. eexists. split; [exact Hdiv|].
  split; [intros Hsmall; now apply div_by_100_exact|].
  split; [reflexivity|]. split; [|reflexivity].
  rewrite (transaction_branch lib self fp entries t notes scheme a c metadata
             created d fx payee narration) by assumption.
  rewrite Hdiv, Hpot. reflexivity.
Qed.

Lemma general_transaction_entry_witness :
  exists metadata,
    extract_body sample_lib sample_importer "monzo.json" [] sample_general =
    Ok [Transaction (new_metadata "monzo.json" 0 metadata) (mkDate 2024 3 9) "*"
          (JStr "Tesco") (JStr "TESCO STORES 3297") [] []
          [mkPosting "Assets:Monzo:Current"
             (mkAmount (mkDec true 125 (-1)) (JStr "GBP")) None None None None]].
Proof.
  eexists.
  destruct (general_transaction_entry sample_lib sample_importer "monzo.json" []
              sample_general "" (JStr "mastercard") (-1250) "GBP"
              _ (JStr sample_created) (mkDate 2024 3 9) None
              (JStr "Tesco") (JStr "TESCO STORES 3297")
              eq_refl ltac:(discriminate) eq_refl eq_refl eq_refl eq_refl
              eq_refl eq_refl eq_refl eq_refl eq_refl eq_refl eq_refl)
    as (hundredth & e & Hdiv & _ & -> & Hbody & _).
  vm_compute in Hdiv. injection Hdiv as <-. exact Hbody.
Defined.

(** C4, as the code has it: a record on the pot scheme that is neither a
    PIN change nor declined gets one Transaction with two postings, both
    on the importer's account, the second of the negated amount of the
    first, so that the two sum to zero; its links are the pot identifier
    of the record's metadata. *)
Theorem pot_transfer_entry lib self fp entries t notes scheme a c metadata
    created d fx payee narration pot_metadata pot_id :
  getitem t "notes" = Ok (JStr notes) ->
  lower_string notes <> "pin change" ->
  contains "decline_reason" t = Ok false ->
  extract_metadata t = Ok metadata ->
  getitem t "created" = Ok created ->
  parse_transaction_time lib created = Ok d ->
  get_unit_price lib t = Ok fx ->
  get_payee t = Ok payee ->
  get_narration t = Ok narration ->
  getitem t "amount" = Ok (JInt a) ->
  getitem t "currency" = Ok (JStr c) ->
  getitem t "scheme" = Ok scheme ->
  py_eq scheme (JStr "uk_retail_pot") = true ->
  getitem t "metadata" = Ok pot_metadata ->
  getitem pot_metadata "pot_id" = Ok pot_id ->
  hashable pot_id = true ->
  exists hundredth,
    Dec.div (Dec.of_Z a) (Dec.of_Z 100) = Ok hundredth /\
    extract_body lib self fp entries t =
    Ok (entries ++
        [Transaction (new_metadata fp 0 metadata) d FLAG_OKAY payee narration []
           [pot_id]
           [mkPosting (importer_account self) (mkAmount hundredth (JStr c))
              None fx None None;
            mkPosting (importer_account self)
              (mkAmount (Dec.neg hundredth) (JStr c)) None None None None]])%list /\
    (Dec.value hundredth + Dec.value (Dec.neg hundredth) == 0)%Q.
Proof.
  intros Hnotes Hpin Hdecl Hmeta Hcreated Hd Hfx Hpayee Hnarr Hamount Hcur
    Hscheme Hpot Hpm Hid Hhash.
  destruct (div_by_100 a) as (hundredth & Hdiv & Hc & Hdigits).
  exists hundredth. split; [exact Hdiv|]. split.
  - rewrite (transaction_branch lib self fp entries t notes scheme a c metadata
               created d fx payee narration) by assumption.
    rewrite Hdiv, Hpot. cbn [bind]. rewrite Hpm. cbn [bind]. rewrite Hid.
    cbn [bind]. rewrite Hhash. reflexivity.
  - rewrite value_neg by assumption. ring.
Qed.

Lemma pot_transfer_entry_witness :
  exists metadata,
    extract_body sample_lib sample_importer "monzo.json" [] sample_pot =
    Ok [Transaction (new_metadata "monzo.json" 0 metadata) (mkDate 2024 3 9) "*"
          (JStr "Tesco") (JStr "Internal pot transfer") []
          [JStr "pot_0000778xxfgh4iu8z83nWb"]
          [mkPosting "Assets:Monzo:Current"
             (mkAmount (mkDec true 50 0) (JStr "GBP")) None None None None;
           mkPosting "Assets:Monzo:Current"
             (mkAmount (mkDec false 50 0) (JStr "GBP")) None None None None]].
Proof.
  eexists.
  destruct (pot_transfer_entry sample_lib sample_importer "monzo.json" []
              sample_pot "" (JStr "uk_retail_pot") (-5000) "GBP"
              _ (JStr sample_created) (mkDate 2024 3 9) None
              (JStr "Tesco") (JStr "Internal pot transfer")
              (JObj [("pot_id", JStr "pot_0000778xxfgh4iu8z83nWb")])
              (JStr "pot_0000778xxfgh4iu8z83nWb")
              eq_refl ltac:(discriminate) eq_refl eq_refl eq_refl eq_refl
              eq_refl eq_refl eq_refl eq_refl eq_refl eq_refl eq_refl
              eq_refl eq_refl eq_refl)
    as (hundredth & Hdiv & Hbody & _).
  vm_compute in Hdiv. injection Hdiv as <-. exact Hbody.
Defined.

(** C4 as stated fails: a declined record on the pot scheme gets a Note,
    not a Transaction. *)
Lemma pot_scheme_declined_is_a_note :
  getitem sample_pot_declined "scheme" = Ok (JStr "uk_retail_pot") /\
  exists e,
    extract_body sample_lib sample_importer "monzo.json" [] sample_pot_declined
    = Ok [e] /\
    postings_of e = [] /\
    forall meta d flg payee narration tags links postings,
      e <> Transaction meta d flg payee narration tags links postings.
Proof.
  split; [reflexivity|]. eexists. split; [vm_compute; reflexivity|].
  split; [reflexivity|]. intros; discriminate.
Qed.

(** C2, as the code has it: the price is computed before the scheme is
    looked at, so on a pot transfer the first posting carries whatever
    [get_unit_price] returns for the record; only the mirror posting is
    always without a price. *)
Theorem pot_transfer_prices lib self fp entries t notes scheme a c metadata
    created d fx payee narration pot_metadata pot_id :
  getitem t "notes" = Ok (JStr notes) ->
  lower_string notes <> "pin change" ->
  contains "decline_reason" t = Ok false ->
  extract_metadata t = Ok metadata ->
  getitem t "created" = Ok created ->
  parse_transaction_time lib created = Ok d ->
  get_unit_price lib t = Ok fx ->
  get_payee t = Ok payee ->
  get_narration t = Ok narration ->
  getitem t "amount" = Ok (JInt a) ->
  getitem t "currency" = Ok (JStr c) ->
  getitem t "scheme" = Ok scheme ->
  py_eq scheme (JStr "uk_retail_pot") = true ->
  getitem t "metadata" = Ok pot_metadata ->
  getitem pot_metadata "pot_id" = Ok pot_id ->
  hashable pot_id = true ->
  exists meta flg links first mirror,
    extract_body lib self fp entries t =
    Ok (entries ++
        [Transaction meta d flg payee narration [] links [first; mirror]])%list /\
    price first = fx /\
    price mirror = None.
Proof.
  intros Hnotes Hpin Hdecl Hmeta Hcreated Hd Hfx Hpayee Hnarr Hamount Hcur
    Hscheme Hpot Hpm Hid Hhash.
  destruct (div_by_100 a) as (hundredth & Hdiv & _).
  rewrite (transaction_branch lib self fp entries t notes scheme a c metadata
             created d fx payee narration) by assumption.
  rewrite Hdiv, Hpot. cbn [bind]. rewrite Hpm. cbn [bind]. rewrite Hid.
  cbn [bind]. rewrite Hhash. cbn [bind Amount_neg new_Amount currency].
  do 5 eexists. split; [reflexivity|]. split; reflexivity.
Qed.

Lemma pot_transfer_prices_witness :
  exists meta flg links first mirror,
    extract_body sample_lib sample_importer "monzo.json" [] sample_pot_foreign =
    Ok [Transaction meta (mkDate 2024 3 9) flg (JStr "Tesco")
          (JStr "Internal pot transfer") [] links [first; mirror]] /\
    price first = Some (mkAmount (mkDec false 117000 (-5)) (JStr "EUR")) /\
    price mirror = None.
Proof.
  eapply (pot_transfer_prices sample_lib sample_importer "monzo.json" []
           sample_pot_foreign "" (JStr "uk_retail_pot") (-5000) "GBP"
           _ (JStr sample_created) (mkDate 2024 3 9)
           (Some (mkAmount (mkDec false 117000 (-5)) (JStr "EUR")))
           (JStr "Tesco") (JStr "Internal pot transfer")
           (JObj [("pot_id", JStr "pot_0000778xxfgh4iu8z83nWb")])
           (JStr "pot_0000778xxfgh4iu8z83nWb"));
    first [reflexivity | discriminate | vm_compute; reflexivity].
Defined.

(** C2 as stated fails: a pot transfer whose local currency differs from
    its settlement currency gets a price on its first posting. *)
Lemma pot_transfer_with_a_price :
  getitem sample_pot_foreign "scheme" = Ok (JStr "uk_retail_pot") /\
  exists e first mirror,
    extract_body sample_lib sample_importer "monzo.json" [] sample_pot_foreign
    = Ok [e] /\
    postings_of e = [first; mirror] /\
    price first <> None.
Proof.
  split; [reflexivity|]. do 3 eexists. split; [vm_compute; reflexivity|].
  split; [reflexivity|]. discriminate.
Qed.

(** ** The price of a foreign payment *)

(** C5, as the code has it: on a record with integer amounts and string
    currencies, no price is returned when the local currency is the
    settlement currency or the local amount is zero.  Otherwise the
    division is made, and its divisor is the settlement amount, which the
    guard does not test: when that amount is zero, [get_unit_price] raises
    [DivisionByZero], the error the guard is there to avoid.  When it is
    not zero, and the local amount is below 10^21, the price is
    |local_amount / amount| rounded half to even at the fifth decimal
    place, in the local currency: the 28-digit precision of the division
    does not disturb the rounding.  A price is returned only when the
    currencies differ and neither amount is zero. *)
Theorem unit_price_characterisation lib fields a la c lc :
  dict_get fields "amount" = Some (JInt a) ->
  dict_get fields "local_amount" = Some (JInt la) ->
  dict_get fields "currency" = Some (JStr c) ->
  dict_get fields "local_currency" = Some (JStr lc) ->
  (lc = c \/ la = 0 -> get_unit_price lib (JObj fields) = Ok None) /\
  (lc <> c -> la <> 0 -> a = 0 ->
   get_unit_price lib (JObj fields) = Raise DivisionByZero) /\
  (lc <> c -> la <> 0 -> a <> 0 -> Z.abs la < 10 ^ 21 ->
   get_unit_price lib (JObj fields)
   = Ok (Some (mkAmount
                 (mkDec false (round_quotient (Z.abs la * 10 ^ 5) (Z.abs a)) (- 5))
                 (JStr lc)))) /\
  ((exists fx, get_unit_price lib (JObj fields) = Ok (Some fx)) ->
   lc <> c /\ la <> 0 /\ a <> 0).
Proof.
  intros Hamount Hlocal Hcur Hlcur.
  assert (Hnone : lc = c \/ la = 0 -> get_unit_price lib (JObj fields) = Ok None).
  { intros H. unfold get_unit_price. cbn [getitem].
    rewrite Hlcur, Hcur. cbn [bind py_eq].
    destruct (String.eqb_spec lc c) as [_|Hne]; [reflexivity|].
    destruct H as [H | ->]; [contradiction|].
    cbn [negb]. rewrite Hlocal. reflexivity. }
  assert (Hzero : lc <> c -> la <> 0 -> a = 0 ->
                  get_unit_price lib (JObj fields) = Raise DivisionByZero).
  { intros Hne Hla Ha. subst a.
    unfold get_unit_price. cbn [getitem].
    rewrite Hlcur, Hcur. cbn [bind py_eq].
    destruct (String.eqb_spec lc c) as [Heq|_]; [contradiction|].
    cbn [negb]. rewrite Hlocal. cbn [bind py_eq].
    destruct (Z.eqb_spec la 0) as [Heq|_]; [contradiction|].
    cbn [negb]. rewrite Hamount. cbn [bind D].
    unfold Dec.div, Dec.of_Z. cbn [dcoeff dsign dexp Z.abs Z.eqb].
    destruct (Z.eqb_spec (Z.abs la) 0) as [Heq|_]; [lia|]. reflexivity. }
  assert (Hsome : lc <> c -> la <> 0 -> a <> 0 -> Z.abs la < 10 ^ 21 ->
                  get_unit_price lib (JObj fields)
                  = Ok (Some (mkAmount
                                (mkDec false
                                   (round_quotient (Z.abs la * 10 ^ 5) (Z.abs a))
                                   (- 5))
                                (JStr lc)))).
  { intros Hne Hla Ha Hbound.
    destruct (unit_price_exact la a Hla Ha Hbound) as (q & Hq & Hp).
    unfold get_unit_price. cbn [getitem].
    rewrite Hlcur, Hcur. cbn [bind py_eq].
    destruct (String.eqb_spec lc c) as [Heq|_]; [contradiction|].
    cbn [negb]. rewrite Hlocal. cbn [bind py_eq].
    destruct (Z.eqb_spec la 0) as [Heq|_]; [contradiction|].
    cbn [negb]. rewrite Hamount. cbn [bind D]. rewrite Hq. cbn [bind].
    rewrite Hp. reflexivity. }
  split; [assumption|]. split; [assumption|]. split; [assumption|].
  intros (fx & Hfx).
  destruct (String.eqb_spec lc c) as [Heq|Hne].
  { rewrite Hnone in Hfx by auto. discriminate Hfx. }
  destruct (Z.eq_dec la 0) as [Heq|Hla].
  { rewrite Hnone in Hfx by auto. discriminate Hfx. }
  destruct (Z.eq_dec a 0) as [Heq|Ha].
  { rewrite (Hzero Hne Hla Heq) in Hfx. discriminate Hfx. }
  auto.
Qed.

Lemma unit_price_characterisation_witness :
  get_unit_price sample_lib sample_foreign
  = Ok (Some (mkAmount (mkDec false 85000 (-5)) (JStr "EUR"))) /\
  get_unit_price sample_lib sample_card_check = Ok None /\
  get_unit_price sample_lib sample_general = Ok None /\
  get_unit_price sample_lib sample_zero_amount = Raise DivisionByZero.
Proof.
  split; [|split; [|split]].
  - apply (proj1 (proj2 (proj2 (unit_price_characterisation sample_lib
                           (sample_base "" "mastercard" 1000 (-850) "GBP" "EUR")
                           1000 (-850) "GBP" "EUR"
                           eq_refl eq_refl eq_refl eq_refl))));
      [discriminate | lia | lia | vm_compute; reflexivity].
  - apply (proj1 (unit_price_characterisation sample_lib
                    (sample_base "" "mastercard" 0 0 "GBP" "EUR")
                    0 0 "GBP" "EUR" eq_refl eq_refl eq_refl eq_refl)).
    right. reflexivity.
  - apply (proj1 (unit_price_characterisation sample_lib
                    (sample_base "" "mastercard" (-1250) (-1250) "GBP" "GBP")
                    (-1250) (-1250) "GBP" "GBP" eq_refl eq_refl eq_refl eq_refl)).
    left. reflexivity.
  - apply (proj1 (proj2 (unit_price_characterisation sample_lib
                           (sample_base "" "mastercard" 0 (-850) "GBP" "EUR")
                           0 (-850) "GBP" "EUR"
                           eq_refl eq_refl eq_refl eq_refl)));
      [discriminate | lia | reflexivity].
Defined.

(** The zero settlement amount on a concrete record: the currencies
    differ, the local amount is not zero, and the division raises. *)
Lemma unit_price_zero_amount :
  getitem sample_zero_amount "local_currency" = Ok (JStr "EUR") /\
  getitem sample_zero_amount "currency" = Ok (JStr "GBP") /\
  getitem sample_zero_amount "local_amount" = Ok (JInt (-850)) /\
  getitem sample_zero_amount "amount" = Ok (JInt 0) /\
  get_unit_price sample_lib sample_zero_amount = Raise DivisionByZero /\
  ~ exists fx, get_unit_price sample_lib sample_zero_amount = Ok (Some fx).
Proof.
  repeat (split; [reflexivity|]). intros (fx & H). discriminate H.
Qed.

(** Nor is a price returned when the quotient has more than 23 digits
    before the decimal point: rounding it to five places would need more
    than the 28 digits of the context. *)
Lemma unit_price_huge_quotient :
  get_unit_price sample_lib
    (JObj (sample_base "" "mastercard" 1 (10 ^ 24) "GBP" "EUR"))
  = Raise InvalidOperation.
Proof. vm_compute. reflexivity. Qed.

(** * Further properties of the importer *)

(** ** The ownership probe *)

Lemma py_eq_JStr_inv v s : py_eq v (JStr s) = true -> v = JStr s.
Proof.
  destruct v; simpl; try discriminate.
  intros H. apply String.eqb_eq in H. now subst.
Qed.

Lemma getitem_Ok_inv v k x :
  getitem v k = Ok x -> exists o, v = JObj o /\ dict_get o k = Some x.
Proof.
  destruct v; simpl; try discriminate.
  destruct (dict_get o k) eqn:E; [|discriminate].
  intros H. injection H as <-. eauto.
Qed.

(** X1: on a JSON file whose document holds a list of transactions
    starting with a record, [identify] looks at that first record only:
    it answers whether its account identifier is the configured one, and
    [False] when the record has none. *)
Theorem identify_first_record lib self fp content doc first rest :
  is_json_mimetype (guess_type lib fp) = true ->
  open_read lib fp = Ok content ->
  json_loads lib content = Ok (JObj doc) ->
  dict_get doc "transactions" = Some (JArr (JObj first :: rest)) ->
  identify lib self fp =
  Ok match dict_get first "account_id" with
     | Some identifier => py_eq identifier (JStr (account_id self))
     | None => false
     end.
Proof.
  intros Hmime Hopen Hload Htx. unfold identify, get_account_id.
  rewrite Hmime, Hopen. cbn [negb bind]. rewrite Hload. cbn [bind getitem].
  rewrite Htx. cbn [bind len List.length Nat.eqb getitem0 contains getitem].
  unfold dict_mem.
  destruct (dict_get first "account_id"); reflexivity.
Qed.

Lemma identify_first_record_witness :
  identify sample_march sample_importer sample_march_path = Ok true /\
  identify sample_march sample_other_importer sample_march_path = Ok false.
Proof.
  split.
  - apply (identify_first_record sample_march sample_importer sample_march_path
             sample_march_path
             [("transactions",
               JArr [sample_general; sample_pot; sample_pin_change;
                     sample_declined_p2p])]
             (sample_base "" "mastercard" (-1250) (-1250) "GBP" "GBP")
             [sample_pot; sample_pin_change; sample_declined_p2p]);
      reflexivity.
  - apply (identify_first_record sample_march sample_other_importer sample_march_path
             sample_march_path
             [("transactions",
               JArr [sample_general; sample_pot; sample_pin_change;
                     sample_declined_p2p])]
             (sample_base "" "mastercard" (-1250) (-1250) "GBP" "GBP")
             [sample_pot; sample_pin_change; sample_declined_p2p]);
      reflexivity.
Defined.

(** X2: when [identify] accepts a file, [get_transactions] returns a
    list, not the [False] sentinel, and the list starts with a record of
    the configured account: [extract] called after a positive [identify]
    never iterates over the sentinel. *)
Theorem identify_true_inv lib self fp :
  identify lib self fp = Ok true ->
  exists first rest,
    get_transactions lib fp = Ok (JArr (JObj first :: rest)) /\
    dict_get first "account_id" = Some (JStr (account_id self)).
Proof.
  unfold identify, get_account_id, get_transactions.
  destruct (is_json_mimetype (guess_type lib fp)); cbn [negb bind];
    [|intros H; discriminate H].
  destruct (open_read lib fp) as [content|]; cbn [bind]; [|discriminate].
  destruct (json_loads lib content) as [data|e]; cbn [bind except_KeyError];
    [|destruct e; discriminate].
  destruct (getitem data "transactions") as [transactions|e] eqn:Htx;
    cbn [bind except_KeyError]; [|destruct e; discriminate].
  apply getitem_Ok_inv in Htx as (doc & -> & Hdoc).
  cbn [contains getitem bind]. unfold dict_mem. rewrite Hdoc. cbn [bind].
  destruct (len transactions) as [n|e]; cbn [bind]; [|destruct e; discriminate].
  destruct (Nat.eqb n 0); [discriminate|].
  destruct (getitem0 transactions) as [first|e] eqn:Hfirst; cbn [bind];
    [|destruct e; discriminate].
  destruct (contains "account_id" first) as [[|]|e]; cbn [bind];
    [| discriminate | destruct e; discriminate].
  destruct (getitem first "account_id") as [identifier|e] eqn:Hid;
    cbn [bind except_KeyError]; [|destruct e; discriminate].
  apply getitem_Ok_inv in Hid as (fields & -> & Hid).
  intros H. injection H as H. apply py_eq_JStr_inv in H. subst identifier.
  destruct transactions as [| | | s | [|x l] | o]; try discriminate Hfirst.
  - destruct s; discriminate Hfirst.
  - injection Hfirst as ->. eauto.
Qed.

Lemma identify_true_inv_witness :
  exists first rest,
    get_transactions sample_march sample_march_path = Ok (JArr (JObj first :: rest)) /\
    dict_get first "account_id" = Some (JStr "acc_00009237aqC8c5umZmrRdh").
Proof.
  apply (identify_true_inv sample_march sample_importer sample_march_path).
  vm_compute. reflexivity.
Defined.

(** ** The three probes on the same file *)

Lemma get_transactions_of_object lib fp content doc :
  is_json_mimetype (guess_type lib fp) = true ->
  open_read lib fp = Ok content ->
  json_loads lib content = Ok (JObj doc) ->
  get_transactions lib fp =
  match dict_get doc "transactions" with
  | Some transactions => Ok transactions
  | None => Ok (JBool false)
  end.
Proof.
  intros Hmime Hopen Hload. unfold get_transactions.
  rewrite Hmime, Hopen. cbn [negb bind]. rewrite Hload.
  cbn [bind contains getitem]. unfold dict_mem.
  destruct (dict_get doc "transactions"); reflexivity.
Qed.

(** X3: on a fetch without transactions, [identify] answers [False],
    [extract] returns no entries, and [date] raises an [IndexError]. *)
Theorem probes_on_empty_fetch lib self fp existing content doc :
  is_json_mimetype (guess_type lib fp) = true ->
  open_read lib fp = Ok content ->
  json_loads lib content = Ok (JObj doc) ->
  dict_get doc "transactions" = Some (JArr []) ->
  identify lib self fp = Ok false /\
  extract lib self fp existing = Ok [] /\
  importer_date lib fp = Raise IndexError.
Proof.
  intros Hmime Hopen Hload Htx.
  pose proof (get_transactions_of_object lib fp content doc Hmime Hopen Hload) as Hget.
  rewrite Htx in Hget.
  split; [|split].
  - unfold identify, get_account_id. rewrite Hmime, Hopen. cbn [negb bind].
    rewrite Hload. cbn [bind getitem]. rewrite Htx. reflexivity.
  - unfold extract. rewrite Hget. reflexivity.
  - unfold importer_date. rewrite Hget. reflexivity.
Qed.

Lemma probes_on_empty_fetch_witness :
  identify sample_lib sample_importer sample_march_path = Ok false /\
  extract sample_lib sample_importer sample_march_path None = Ok [] /\
  importer_date sample_lib sample_march_path = Raise IndexError.
Proof.
  apply (probes_on_empty_fetch sample_lib sample_importer sample_march_path None
           sample_march_path [("transactions", JArr [])]); reflexivity.
Defined.

(** X4: on a file that is not JSON, or whose JSON object has no
    ["transactions"] key, [date] raises a [TypeError]: it subscripts the
    [False] sentinel of [get_transactions]. *)
Theorem date_on_foreign_files lib fp :
  is_json_mimetype (guess_type lib fp) = false \/
  (exists content doc,
      open_read lib fp = Ok content /\
      json_loads lib content = Ok (JObj doc) /\
      dict_get doc "transactions" = None) ->
  importer_date lib fp = Raise TypeError.
Proof.
  intros H. unfold importer_date.
  assert (Hget : get_transactions lib fp = Ok (JBool false)).
  { destruct (is_json_mimetype (guess_type lib fp)) eqn:Hmime.
    - destruct H as [H | (content & doc & Hopen & Hload & Hkey)]; [discriminate H|].
      rewrite (get_transactions_of_object lib fp content doc Hmime Hopen Hload), Hkey.
      reflexivity.
    - unfold get_transactions. rewrite Hmime. reflexivity. }
  rewrite Hget. reflexivity.
Qed.

Lemma date_on_foreign_files_witness :
  importer_date sample_lib "statement.csv" = Raise TypeError /\
  importer_date sample_lib "empty-object.json" = Raise TypeError.
Proof.
  split.
  - apply (date_on_foreign_files sample_lib "statement.csv"). left. reflexivity.
  - apply (date_on_foreign_files sample_lib "empty-object.json").
    right. exists "empty-object.json", []. repeat split; reflexivity.
Defined.

(** ** What one iteration leaves behind *)

Lemma extract_body_inv lib self fp t e :
  extract_body lib self fp [] t = Ok [e] ->
  exists fields metadata created,
    t = JObj fields /\
    extract_metadata t = Ok metadata /\
    entry_meta e = new_metadata fp 0 metadata /\
    getitem t "created" = Ok created /\
    parse_transaction_time lib created = Ok (entry_date e).
Proof.
  unfold extract_body.
  destruct (extract_metadata t) as [metadata|] eqn:Hmeta; cbn [bind]; [|discriminate].
  destruct (getitem t "notes") as [notes|] eqn:Hnotes; cbn [bind]; [|discriminate].
  apply getitem_Ok_inv in Hnotes as (fields & -> & Hnotes).
  intros H. exists fields, metadata.
  revert H. step_binds; intros H; try discriminate H;
    injection H as <-; eexists; repeat split; eassumption.
Qed.

(** X5: when [extract] returns entries, [date] returns the date of the
    first of them. *)
Theorem date_is_first_entry lib self fp existing e rest :
  extract lib self fp existing = Ok (e :: rest) ->
  importer_date lib fp = Ok (entry_date e).
Proof.
  unfold extract, importer_date. intros H.
  apply bind_Ok_inv in H as (transactions & Htx & H).
  apply bind_Ok_inv in H as (items & Hitems & Hloop).
  apply extract_loop_spec in Hloop as (produced & Hout & Hlen & Hnth).
  simpl in Hout. subst produced.
  destruct items as [|t items]; [discriminate Hlen|].
  destruct (Hnth 0%nat t eq_refl) as (e' & Hbody & He'). injection He' as ->.
  destruct (extract_body_inv _ _ _ _ _ Hbody)
    as (fields & metadata & created & -> & _ & _ & Hcreated & Hdate).
  rewrite Htx. cbn [bind].
  assert (Hfirst : getitem0 transactions = Ok (JObj fields)).
  { destruct transactions as [| | | s | l | o]; try discriminate Hitems;
      simpl in Hitems; injection Hitems as Hitems.
    - destruct s; discriminate Hitems.
    - subst l. reflexivity.
    - destruct o; discriminate Hitems. }
  rewrite Hfirst. cbn [bind]. rewrite Hcreated. cbn [bind]. exact Hdate.
Qed.

Lemma date_is_first_entry_witness :
  exists e rest,
    extract sample_march sample_importer sample_march_path None = Ok (e :: rest) /\
    entry_date e = mkDate 2024 3 9 /\
    importer_date sample_march sample_march_path = Ok (entry_date e).
Proof.
  do 2 eexists. split; [vm_compute; reflexivity|]. split; [reflexivity|].
  eapply (date_is_first_entry sample_march sample_importer sample_march_path None).
  vm_compute. reflexivity.
Defined.

(** X6: [extract] returns entries only for a JSON array of objects, one
    entry for each; from anything else that can be iterated it returns
    entries only when there is nothing to iterate (an empty object or an
    empty string), and then none. *)
Theorem extract_accepts_objects_only lib self fp existing entries :
  extract lib self fp existing = Ok entries ->
  exists transactions,
    get_transactions lib fp = Ok transactions /\
    ((exists items,
         transactions = JArr items /\
         List.length entries = List.length items /\
         Forall (fun t => exists fields, t = JObj fields) items) \/
     (entries = [] /\ (transactions = JObj [] \/ transactions = JStr ""))).
Proof.
  unfold extract. intros H.
  apply bind_Ok_inv in H as (transactions & Htx & H).
  apply bind_Ok_inv in H as (items & Hitems & Hloop).
  apply extract_loop_spec in Hloop as (produced & Hout & Hlen & Hnth).
  simpl in Hout. subst produced.
  exists transactions. split; [assumption|].
  assert (Hobj : Forall (fun t => exists fields, t = JObj fields) items).
  { apply Forall_forall. intros t Hin.
    apply In_nth_error in Hin as (i & Hi).
    destruct (Hnth i t Hi) as (e & Hbody & _).
    destruct (extract_body_inv _ _ _ _ _ Hbody) as (fields & _ & _ & -> & _).
    eauto. }
  destruct transactions as [| | | s | l | o]; try discriminate Hitems;
    simpl in Hitems; injection Hitems as Hitems; subst items.
  - right. destruct s as [|c s].
    + destruct entries; [auto | discriminate Hlen].
    + exfalso. inversion Hobj as [|? ? (fields & Hc) _]. discriminate Hc.
  - left. eauto.
  - right. destruct o as [|[k v] o].
    + destruct entries; [auto | discriminate Hlen].
    + exfalso. inversion Hobj as [|? ? (fields & Hc) _]. discriminate Hc.
Qed.

Lemma extract_accepts_objects_only_witness :
  exists entries,
    extract sample_march sample_importer sample_march_path None = Ok entries /\
    exists transactions,
      get_transactions sample_march sample_march_path = Ok transactions /\
      ((exists items,
           transactions = JArr items /\
           List.length entries = List.length items /\
           Forall (fun t => exists fields, t = JObj fields) items) \/
       (entries = [] /\ (transactions = JObj [] \/ transactions = JStr ""))).
Proof.
  eexists. split; [vm_compute; reflexivity|].
  eapply (extract_accepts_objects_only sample_march sample_importer
            sample_march_path None).
  vm_compute. reflexivity.
Defined.

(** Everything a successful iteration has read and built. *)
Lemma extract_body_cases lib self fp t e :
  extract_body lib self fp [] t = Ok [e] ->
  exists fields metadata notes created d,
    t = JObj fields /\
    extract_metadata t = Ok metadata /\
    dict_get fields "notes" = Some (JStr notes) /\
    dict_get fields "created" = Some created /\
    parse_transaction_time lib created = Ok d /\
    let meta := new_metadata fp 0 metadata in
    let acct := importer_account self in
    (lower_string notes = "pin change" /\ e = Note meta d acct "PIN Change") \/
    (lower_string notes <> "pin change" /\
     exists payee reason,
       dict_get fields "decline_reason" = Some reason /\
       get_payee t = Ok payee /\
       e = Note meta d acct
             (str lib payee ++ " transaction declined with reason " ++ str lib reason)) \/
    (lower_string notes <> "pin change" /\
     dict_get fields "decline_reason" = None /\
     exists fx payee narration amount total hundredth currency unit scheme,
       get_unit_price lib t = Ok fx /\
       get_payee t = Ok payee /\
       get_narration t = Ok narration /\
       dict_get fields "amount" = Some amount /\
       D lib amount = Ok total /\
       Dec.div total (Dec.of_Z 100) = Ok hundredth /\
       dict_get fields "currency" = Some currency /\
       new_Amount hundredth currency = Ok unit /\
       dict_get fields "scheme" = Some scheme /\
       let first := mkPosting acct unit None fx None None in
       ((py_eq scheme (JStr "uk_retail_pot") = false /\
         e = Transaction meta d FLAG_OKAY payee narration [] [] [first]) \/
        (py_eq scheme (JStr "uk_retail_pot") = true /\
         exists pot_metadata pot_id negated,
           dict_get fields "metadata" = Some pot_metadata /\
           getitem pot_metadata "pot_id" = Ok pot_id /\
           hashable pot_id = true /\
           Amount_neg unit = Ok negated /\
           e = Transaction meta d FLAG_OKAY payee narration [] [pot_id]
                 [first; mkPosting acct negated None None None None]))).
Proof.
  unfold extract_body.
  destruct (extract_metadata t) as [metadata|] eqn:Hmeta; cbn [bind]; [|discriminate].
  destruct (getitem t "notes") as [notes0|] eqn:Hnotes; cbn [bind]; [|discriminate].
  apply getitem_Ok_inv in Hnotes as (fields & -> & Hnotes).
  destruct notes0 as [| | | notes | |]; cbn [lower bind]; try discriminate.
  cbn [getitem contains]. unfold dict_mem.
  destruct (dict_get fields "created") as [created|] eqn:Hcreated; cbn [bind].
  2:{ destruct (_ =? _)%string; [discriminate|].
      destruct (dict_get fields "decline_reason"); cbn [bind]; [|discriminate].
      destruct (get_payee _); cbn [bind]; discriminate. }
  destruct (String.eqb_spec (lower_string notes) "pin change") as [Hpin|Hpin].
  { destruct (parse_transaction_time lib created) as [d|] eqn:Hd; cbn [bind];
      [|discriminate].
    intros H. injection H as <-.
    exists fields, metadata, notes, created, d. repeat (split; [assumption || reflexivity|]).
    left. split; [assumption|reflexivity]. }
  destruct (dict_get fields "decline_reason") as [reason|] eqn:Hdecl; cbn [bind].
  { destruct (get_payee (JObj fields)) as [payee|] eqn:Hpayee; cbn [bind];
      [|discriminate].
    destruct (parse_transaction_time lib created) as [d|] eqn:Hd; cbn [bind];
      [|discriminate].
    intros H. injection H as <-.
    exists fields, metadata, notes, created, d. repeat (split; [assumption || reflexivity|]).
    right. left. split; [assumption|]. exists payee, reason. auto. }
  destruct (parse_transaction_time lib created) as [d|] eqn:Hd; cbn [bind];
    [|discriminate].
  destruct (get_unit_price lib (JObj fields)) as [fx|] eqn:Hfx; cbn [bind];
    [|discriminate].
  destruct (get_payee (JObj fields)) as [payee|] eqn:Hpayee; cbn [bind];
    [|discriminate].
  destruct (get_narration (JObj fields)) as [narration|] eqn:Hnarr; cbn [bind];
    [|discriminate].
  destruct (dict_get fields "amount") as [amount|] eqn:Hamount; cbn [bind];
    [|discriminate].
  destruct (D lib amount) as [total|] eqn:Htotal; cbn [bind]; [|discriminate].
  destruct (Dec.div total (Dec.of_Z 100)) as [hundredth|] eqn:Hdiv; cbn [bind];
    [|discriminate].
  destruct (dict_get fields "currency") as [currency|] eqn:Hcur; cbn [bind];
    [|discriminate].
  destruct (new_Amount hundredth currency) as [unit|] eqn:Hunit; cbn [bind];
    [|discriminate].
  destruct (dict_get fields "scheme") as [scheme|] eqn:Hscheme; cbn [bind];
    [|discriminate].
  intros H.
  exists fields, metadata, notes, created, d. repeat (split; [assumption || reflexivity|]).
  right. right. split; [assumption|]. split; [assumption|].
  exists fx, payee, narration, amount, total, hundredth, currency, unit, scheme.
  repeat (split; [assumption || reflexivity|]).
  destruct (py_eq scheme (JStr "uk_retail_pot")) eqn:Hpot.
  - right. split; [reflexivity|].
    destruct (dict_get fields "metadata") as [pot_metadata|] eqn:Hpm; cbn [bind] in H;
      [|discriminate H].
    destruct (getitem pot_metadata "pot_id") as [pot_id|] eqn:Hid; cbn [bind] in H;
      [|discriminate H].
    destruct (hashable pot_id) eqn:Hhash; [|discriminate H].
    destruct (Amount_neg unit) as [negated|] eqn:Hneg; cbn [bind] in H;
      [|discriminate H].
    injection H as <-. exists pot_metadata, pot_id, negated. auto 10.
  - left. cbn [bind] in H. injection H as <-. auto.
Qed.

(** ** From the output of [extract] back to the loop body *)

Lemma extract_nth lib self fp existing entries items i t e :
  extract lib self fp existing = Ok entries ->
  get_transactions lib fp = Ok (JArr items) ->
  nth_error items i = Some t ->
  nth_error entries i = Some e ->
  extract_body lib self fp [] t = Ok [e].
Proof.
  unfold extract. intros H Htx Ht He. rewrite Htx in H. cbn [bind iter] in H.
  apply extract_loop_spec in H as (produced & Hout & _ & Hnth).
  simpl in Hout. subst produced.
  destruct (Hnth i t Ht) as (e' & Hbody & He'). congruence.
Qed.

Lemma extract_In lib self fp existing entries e :
  extract lib self fp existing = Ok entries ->
  In e entries ->
  exists t, extract_body lib self fp [] t = Ok [e].
Proof.
  unfold extract. intros H Hin.
  apply bind_Ok_inv in H as (transactions & _ & H).
  apply bind_Ok_inv in H as (items & _ & Hloop).
  apply extract_loop_spec in Hloop as (produced & Hout & Hlen & Hnth).
  simpl in Hout. subst produced.
  apply In_nth_error in Hin as (i & Hi).
  assert (Hlt : (i < List.length items)%nat).
  { rewrite <- Hlen. apply nth_error_Some. congruence. }
  destruct (nth_error items i) as [t|] eqn:Ht;
    [|apply nth_error_None in Ht; lia].
  destruct (Hnth i t Ht) as (e' & Hbody & He'). exists t. congruence.
Qed.

(** ** Metadata *)

Lemma extract_metadata_shape fields metadata :
  extract_metadata (JObj fields) = Ok metadata ->
  exists id dedupe_id description created settled updated counterparty,
    dict_get fields "id" = Some id /\
    dict_get fields "dedupe_id" = Some dedupe_id /\
    dict_get fields "description" = Some description /\
    dict_get fields "created" = Some created /\
    dict_get fields "settled" = Some settled /\
    dict_get fields "updated" = Some updated /\
    dict_get fields "counterparty" = Some counterparty /\
    let base :=
      [("bank_id", id); ("bank_dedupe_id", dedupe_id);
       ("bank_description", description); ("bank_created_date", created);
       ("bank_settlement_date", settled); ("bank_updated_date", updated)] in
    (contains "account_number" counterparty = Ok true /\
     exists account_number sort_code,
       getitem counterparty "account_number" = Ok account_number /\
       getitem counterparty "sort_code" = Ok sort_code /\
       metadata = (base ++ [("counterparty_account_number", account_number);
                            ("counterparty_sort_code", sort_code)])%list) \/
    (contains "account_number" counterparty = Ok false /\
     contains "number" counterparty = Ok true /\
     exists phone user_id,
       getitem counterparty "number" = Ok phone /\
       getitem counterparty "user_id" = Ok user_id /\
       metadata = (base ++ [("counterparty_phone_number", phone);
                            ("counterparty_user_id", user_id)])%list) \/
    (contains "account_number" counterparty = Ok false /\
     contains "number" counterparty = Ok false /\
     metadata = base).
Proof.
  unfold extract_metadata. cbn [getitem].
  destruct (dict_get fields "id") as [id|]; cbn [bind]; [|discriminate].
  destruct (dict_get fields "dedupe_id") as [dedupe_id|]; cbn [bind]; [|discriminate].
  destruct (dict_get fields "description") as [description|]; cbn [bind];
    [|discriminate].
  destruct (dict_get fields "created") as [created|]; cbn [bind]; [|discriminate].
  destruct (dict_get fields "settled") as [settled|]; cbn [bind]; [|discriminate].
  destruct (dict_get fields "updated") as [updated|]; cbn [bind]; [|discriminate].
  destruct (dict_get fields "counterparty") as [counterparty|]; cbn [bind];
    [|discriminate].
  intros H.
  exists id, dedupe_id, description, created, settled, updated, counterparty.
  repeat (split; [reflexivity|]). cbv zeta.
  destruct (contains "account_number" counterparty) as [[|]|] eqn:Hacc;
    cbn [bind] in H; [| |discriminate H].
  - destruct (getitem counterparty "account_number") as [account_number|] eqn:Han;
      cbn [bind] in H; [|discriminate H].
    destruct (getitem counterparty "sort_code") as [sort_code|] eqn:Hsc;
      cbn [bind] in H; [|discriminate H].
    injection H as <-. left. split; [reflexivity|].
    exists account_number, sort_code. auto.
  - destruct (contains "number" counterparty) as [[|]|] eqn:Hnum;
      cbn [bind] in H; [| |discriminate H].
    + destruct (getitem counterparty "number") as [phone|] eqn:Hph;
        cbn [bind] in H; [|discriminate H].
      destruct (getitem counterparty "user_id") as [user_id|] eqn:Huid;
        cbn [bind] in H; [|discriminate H].
      injection H as <-. right. left. split; [reflexivity|]. split; [reflexivity|].
      exists phone, user_id. auto.
    + injection H as <-. right. right. auto.
Qed.

(** X7: the entry of a record carries in its metadata the path of the
    file, line 0, and the record's id, dedupe id, description and its
    three timestamps under their [bank_] keys. *)
Theorem entries_carry_bank_metadata lib self fp existing entries items i t e :
  extract lib self fp existing = Ok entries ->
  get_transactions lib fp = Ok (JArr items) ->
  nth_error items i = Some t ->
  nth_error entries i = Some e ->
  dict_get (entry_meta e) "filename" = Some (JStr fp) /\
  dict_get (entry_meta e) "lineno" = Some (JInt 0) /\
  Forall (fun key => exists v, getitem t (snd key) = Ok v /\
                               dict_get (entry_meta e) (fst key) = Some v)
         bank_keys.
Proof.
  intros H Htx Ht He.
  pose proof (extract_nth _ _ _ _ _ _ _ _ _ H Htx Ht He) as Hbody.
  destruct (extract_body_cases _ _ _ _ _ Hbody)
    as (fields & metadata & _ & _ & _ & -> & Hmeta & _).
  destruct (extract_body_inv _ _ _ _ _ Hbody)
    as (_ & metadata' & _ & _ & Hmeta' & -> & _).
  rewrite Hmeta in Hmeta'. injection Hmeta' as <-.
  destruct (extract_metadata_shape _ _ Hmeta)
    as (id & dedupe_id & description & created & settled & updated & cp &
        Hid & Hdd & Hdesc & Hcr & Hse & Hup & _ & Hshape).
  cbv zeta in Hshape. unfold bank_keys.
  destruct Hshape as [(_ & an & sc & _ & _ & ->) |
                      [(_ & _ & ph & uid & _ & _ & ->) | (_ & _ & ->)]];
    (split; [reflexivity|]); (split; [reflexivity|]);
    repeat (apply Forall_cons || apply Forall_nil);
    cbn [getitem fst snd]; rewrite ?Hid, ?Hdd, ?Hdesc, ?Hcr, ?Hse, ?Hup;
    eexists; (split; [reflexivity|]); reflexivity.
Qed.



(** X8: the metadata of an entry holds the counterparty in one shape at
    most.  An account number wins over a phone number: a counterparty
    with both is recorded by sort code and account number only. *)
Theorem entries_carry_one_counterparty_shape lib self fp existing entries items i t e :
  extract lib self fp existing = Ok entries ->
  get_transactions lib fp = Ok (JArr items) ->
  nth_error items i = Some t ->
  nth_error entries i = Some e ->
  one_counterparty_shape t (entry_meta e).
Proof.
  intros H Htx Ht He.
  pose proof (extract_nth _ _ _ _ _ _ _ _ _ H Htx Ht He) as Hbody.
  destruct (extract_body_inv _ _ _ _ _ Hbody)
    as (fields & metadata & _ & -> & Hmeta & -> & _).
  destruct (extract_metadata_shape _ _ Hmeta)
    as (id & dedupe_id & description & created & settled & updated & cp &
        _ & _ & _ & _ & _ & _ & Hcp & Hshape).
  exists cp. cbn [getitem]. rewrite Hcp. split; [reflexivity|].
  cbv zeta in Hshape.
  destruct Hshape as [(Hacc & an & sc & Han & Hsc & ->) |
                      [(Hacc & Hnum & ph & uid & Hph & Huid & ->) |
                       (Hacc & Hnum & ->)]].
  - left. split; [assumption|]. split; [|split; reflexivity].
    exists an, sc. repeat split; (assumption || reflexivity).
  - right. left. split; [assumption|]. split; [assumption|].
    split; [|split; reflexivity].
    exists ph, uid. repeat split; (assumption || reflexivity).
  - right. right. repeat split; (assumption || reflexivity).
Qed.

(** ** The shape of every entry *)

Lemma Amount_neg_inv unit negated :
  Amount_neg unit = Ok negated ->
  negated = mkAmount (Dec.neg (number unit)) (currency unit).
Proof.
  unfold Amount_neg, new_Amount.
  destruct (currency unit); intros H; try discriminate H; now injection H as <-.
Qed.

Lemma extract_body_well_formed lib self fp t e :
  extract_body lib self fp [] t = Ok [e] ->
  entry_well_formed (importer_account self) e.
Proof.
  intros Hbody.
  destruct (extract_body_cases _ _ _ _ _ Hbody)
    as (fields & metadata & notes & created & d & _ & _ & _ & _ & _ & Hcases).
  cbv zeta in Hcases.
  destruct Hcases as [(_ & ->) | [(_ & payee & reason & _ & _ & ->) |
    (_ & _ & fx & payee & narration & amount & total & hundredth & currency &
     unit & scheme & _ & _ & _ & _ & _ & _ & _ & _ & _ & Hshape)]];
    [reflexivity | reflexivity |].
  destruct Hshape as [(_ & ->) | (_ & pm & pot_id & negated & _ & _ & _ & Hneg & ->)].
  - repeat split. repeat constructor.
  - apply Amount_neg_inv in Hneg. subst negated.
    repeat split; repeat constructor.
Qed.

(** X10: every entry [extract] returns is on the importer's account,
    posting by posting; a Transaction is flagged '*', has no tags, has one
    posting and no link or two postings and one link; no posting has a
    cost, a flag or metadata; the second posting has no price and is the
    negation of the first in the same currency. *)
Theorem extract_entries_well_formed lib self fp existing entries :
  extract lib self fp existing = Ok entries ->
  Forall (entry_well_formed (importer_account self)) entries.
Proof.
  intros H. apply Forall_forall. intros e Hin.
  destruct (extract_In _ _ _ _ _ _ H Hin) as (t & Hbody).
  now apply extract_body_well_formed in Hbody.
Qed.

(** X11: the entry of a record has the shape the precedence list
    assigns to the record: PIN change, then declined, then pot transfer,
    then general. *)
Theorem entries_follow_the_precedence lib self fp existing entries items i t e :
  extract lib self fp existing = Ok entries ->
  get_transactions lib fp = Ok (JArr items) ->
  nth_error items i = Some t ->
  nth_error entries i = Some e ->
  exists fields notes,
    t = JObj fields /\
    dict_get fields "notes" = Some (JStr notes) /\
    has_shape (classify fields notes) e.
Proof.
  intros H Htx Ht He.
  pose proof (extract_nth _ _ _ _ _ _ _ _ _ H Htx Ht He) as Hbody.
  destruct (extract_body_cases _ _ _ _ _ Hbody)
    as (fields & metadata & notes & created & d & -> & _ & Hnotes & _ & _ & Hcases).
  exists fields, notes. split; [reflexivity|]. split; [assumption|].
  cbv zeta in Hcases. unfold classify, dict_mem.
  destruct Hcases as [(Hpin & ->) | [(Hpin & payee & reason & Hreason & _ & ->) |
    (Hpin & Hdecl & fx & payee & narration & amount & total & hundredth & currency &
     unit & scheme & _ & _ & _ & _ & _ & _ & _ & _ & Hscheme & Hshape)]].
  - rewrite Hpin. simpl. eauto.
  - destruct (String.eqb_spec (lower_string notes) "pin change"); [contradiction|].
    rewrite Hreason. simpl. eauto.
  - destruct (String.eqb_spec (lower_string notes) "pin change"); [contradiction|].
    rewrite Hdecl, Hscheme.
    destruct Hshape as [(-> & ->) | (-> & pm & pot_id & negated & _ & _ & _ & _ & ->)];
      simpl; eauto 12.
Qed.

(** X12: a Transaction is narrated by the notes of its record when
    there are any; without notes, by "Internal pot transfer" when it has
    two postings and by the description of the record when it has one.
    The scheme test of [get_narration] and that of the loop body agree. *)
Theorem transactions_are_narrated lib self fp existing entries items i t
    meta d flg payee narration tags links postings :
  extract lib self fp existing = Ok entries ->
  get_transactions lib fp = Ok (JArr items) ->
  nth_error items i = Some t ->
  nth_error entries i
  = Some (Transaction meta d flg payee narration tags links postings) ->
  exists notes,
    getitem t "notes" = Ok (JStr notes) /\
    ((notes <> "" /\ narration = JStr notes) \/
     (notes = "" /\ List.length postings = 2%nat /\
      narration = JStr "Internal pot transfer") \/
     (notes = "" /\ List.length postings = 1%nat /\
      getitem t "description" = Ok narration)).
Proof.
  intros H Htx Ht He.
  pose proof (extract_nth _ _ _ _ _ _ _ _ _ H Htx Ht He) as Hbody.
  destruct (extract_body_cases _ _ _ _ _ Hbody)
    as (fields & metadata & notes & created & d' & -> & _ & Hnotes & _ & _ & Hcases).
  exists notes. cbn [getitem]. rewrite Hnotes. split; [reflexivity|].
  cbv zeta in Hcases.
  destruct Hcases as [(_ & Hc) | [(_ & ? & ? & _ & _ & Hc) |
    (_ & _ & fx & payee' & narration' & amount & total & hundredth & currency &
     unit & scheme & _ & _ & Hnarr & _ & _ & _ & _ & _ & Hscheme & Hshape)]];
    try discriminate Hc.
  unfold get_narration in Hnarr. cbn [getitem] in Hnarr.
  rewrite Hnotes, Hscheme in Hnarr. cbn [bind py_eq] in Hnarr.
  destruct (String.eqb_spec notes "") as [Hempty|Hfull]; cbn [negb] in Hnarr.
  - destruct Hshape as [(Hpot & Hc) | (Hpot & pm & pot_id & negated & _ & _ & _ & _ & Hc)];
      injection Hc as -> -> -> -> -> -> -> ->; rewrite Hpot in Hnarr.
    + right. right. cbn [bind] in Hnarr.
      destruct (dict_get fields "description"); [|discriminate Hnarr]. auto.
    + right. left. injection Hnarr as <-. auto.
  - left. injection Hnarr as <-.
    destruct Hshape as [(_ & Hc) | (_ & pm & pot_id & negated & _ & _ & _ & _ & Hc)];
      injection Hc as -> -> -> -> -> -> -> ->; auto.
Qed.

(** ** The loop *)

Lemma extract_loop_frame lib self fp items :
  forall entries,
    extract_loop lib self fp items entries =
    (produced <- extract_loop lib self fp items [] ;; Ok (entries ++ produced)%list).
Proof.
  induction items as [|t items IH]; intros entries; cbn [extract_loop].
  - cbn [bind]. now rewrite app_nil_r.
  - rewrite (extract_body_frame lib self fp entries t).
    destruct (extract_body lib self fp [] t) as [r|e]; cbn [bind]; [|reflexivity].
    rewrite (IH (entries ++ r)%list), (IH r).
    destruct (extract_loop lib self fp items []) as [produced|e]; cbn [bind];
      [|reflexivity].
    now rewrite app_assoc.
Qed.

Lemma extract_loop_app lib self fp first second :
  forall entries,
    extract_loop lib self fp (first ++ second) entries =
    (mid <- extract_loop lib self fp first entries ;;
     extract_loop lib self fp second mid).
Proof.
  induction first as [|t first IH]; intros entries; cbn [app extract_loop].
  - reflexivity.
  - destruct (extract_body lib self fp entries t) as [entries'|e]; cbn [bind];
      [apply IH | reflexivity].
Qed.

(** X16: the loop of [extract] treats each record on its own: the
    entries of a list of records are the entries of any first part
    followed by the entries of the rest, and it raises when either part
    does. *)
Theorem extract_loop_concat lib self fp first second :
  extract_loop lib self fp (first ++ second) [] =
  (head <- extract_loop lib self fp first [] ;;
   tail <- extract_loop lib self fp second [] ;;
   Ok (head ++ tail)%list).
Proof.
  rewrite extract_loop_app.
  destruct (extract_loop lib self fp first []) as [head|e]; cbn [bind];
    [|reflexivity].
  apply extract_loop_frame.
Qed.

(** X15: [extract] is all or nothing.  It raises the exception of the
    first record the loop body fails on; the entries built from the
    records before it are lost. *)
Theorem extract_first_failure lib self fp existing before t after done e :
  get_transactions lib fp = Ok (JArr (before ++ t :: after)) ->
  extract_loop lib self fp before [] = Ok done ->
  extract_body lib self fp [] t = Raise e ->
  extract lib self fp existing = Raise e.
Proof.
  intros Htx Hbefore Hbody. unfold extract. rewrite Htx. cbn [bind iter].
  rewrite extract_loop_app, Hbefore. cbn [bind extract_loop].
  rewrite extract_body_frame, Hbody. reflexivity.
Qed.

Lemma extract_first_failure_witness :
  extract sample_broken sample_importer sample_march_path None = Raise KeyError.
Proof.
  eapply (extract_first_failure sample_broken sample_importer sample_march_path
            None [sample_general] sample_no_counterparty [sample_pot]).
  - vm_compute. reflexivity.
  - vm_compute. reflexivity.
  - vm_compute. reflexivity.
Defined.

(** ** Counterparties and merchants the body cannot read *)

(** X9: a counterparty with an account number and no sort code, or with
    a phone number and no user id, makes [extract] raise. *)
Theorem counterparty_shape_is_all_or_nothing lib self fp existing items fields
    counterparty :
  get_transactions lib fp = Ok (JArr items) ->
  In (JObj fields) items ->
  dict_get fields "counterparty" = Some (JObj counterparty) ->
  (dict_mem counterparty "account_number" = true /\
   dict_get counterparty "sort_code" = None) \/
  (dict_mem counterparty "account_number" = false /\
   dict_mem counterparty "number" = true /\
   dict_get counterparty "user_id" = None) ->
  exists e, extract lib self fp existing = Raise e.
Proof.
  intros Htx Hin Hcp Hshape. unfold extract. rewrite Htx. cbn [bind iter].
  apply extract_loop_raises with (t := JObj fields); [assumption|].
  intros entries. unfold extract_body.
  assert (Hmeta : exists e, extract_metadata (JObj fields) = Raise e).
  { unfold extract_metadata.
    do 6 (match goal with
          | |- context [bind (getitem ?t ?k) _] =>
              destruct (getitem t k); cbn [bind]; [|eauto]
          end).
    cbn [getitem]. rewrite Hcp. cbn [bind contains getitem].
    destruct Hshape as [(-> & Hsc) | (-> & -> & Huid)]; cbn [bind].
    - destruct (dict_get counterparty "account_number"); cbn [bind]; [|eauto].
      rewrite Hsc. cbn [bind]. eauto.
    - destruct (dict_get counterparty "number"); cbn [bind]; [|eauto].
      rewrite Huid. cbn [bind]. eauto. }
  destruct Hmeta as (e & ->). cbn [bind]. eauto.
Qed.

(** X14: a merchant that is truthy without being an object (the
    merchant identifier of a fetch without [expand[]=merchant]) makes
    [get_payee] raise a [TypeError], and with it the loop body on every
    record that is not a PIN change. *)
Theorem unexpanded_merchant lib self fp entries fields merchant :
  dict_get fields "merchant" = Some merchant ->
  truthy merchant = true ->
  (forall o, merchant <> JObj o) ->
  get_payee (JObj fields) = Raise TypeError /\
  forall notes,
    dict_get fields "notes" = Some (JStr notes) ->
    lower_string notes <> "pin change" ->
    exists e, extract_body lib self fp entries (JObj fields) = Raise e.
Proof.
  intros Hm Htruthy Hnot.
  assert (Hpayee : get_payee (JObj fields) = Raise TypeError).
  { unfold get_payee. cbn [getitem]. rewrite Hm. cbn [bind]. rewrite Htruthy.
    destruct merchant; try reflexivity. exfalso. now apply (Hnot o). }
  split; [assumption|]. intros notes Hnotes Hpin. unfold extract_body.
  destruct (extract_metadata (JObj fields)); cbn [bind]; [|eauto].
  cbn [getitem]. rewrite Hnotes. cbn [bind lower].
  destruct (String.eqb_spec (lower_string notes) "pin change"); [contradiction|].
  cbn [contains bind]. rewrite Hpayee.
  destruct (dict_mem fields "decline_reason"); cbn [bind]; [eauto|].
  destruct (dict_get fields "created"); cbn [bind]; [|eauto].
  destruct (parse_transaction_time lib j); cbn [bind]; [|eauto].
  destruct (get_unit_price lib (JObj fields)); cbn [bind]; eauto.
Qed.

(** ** The price *)

Lemma dec_fix_sign d : dsign (dec_fix d) = dsign d.
Proof.
  unfold dec_fix. destruct (_ =? _); [reflexivity|].
  destruct (_ <? _); [|reflexivity]. destruct (_ <? _); reflexivity.
Qed.

Lemma quantize_shape d e p :
  quantize d e = Ok p -> dexp p = e /\ dsign p = dsign d.
Proof.
  unfold quantize.
  destruct (dcoeff d =? 0) eqn:Hzero.
  - intros H. injection H as <-. split; reflexivity.
  - destruct (_ <? _); [discriminate|]. cbv zeta.
    destruct (prec <? ndigits (dcoeff (rescale d e))) eqn:Hfit; [discriminate|].
    intros H. injection H as <-.
    assert (Hfix : dec_fix (rescale d e) = rescale d e).
    { unfold dec_fix. cbv zeta.
      destruct (dcoeff (rescale d e) =? 0); [reflexivity|]. now rewrite Hfit. }
    rewrite Hfix. unfold rescale. rewrite Hzero.
    destruct (_ <=? _); split; reflexivity.
Qed.

(** X17: whatever the record, a price that [get_unit_price] returns is
    not negative, has exactly five decimal places, and is in the local
    currency of the record. *)
Theorem unit_price_shape lib t p :
  get_unit_price lib t = Ok (Some p) ->
  dsign (number p) = false /\
  dexp (number p) = - 5 /\
  getitem t "local_currency" = Ok (currency p).
Proof.
  unfold get_unit_price.
  destruct (getitem t "local_currency") as [lc|]; cbn [bind]; [|discriminate].
  destruct (getitem t "currency") as [c|]; cbn [bind]; [|discriminate].
  destruct (negb _); [|discriminate].
  destruct (getitem t "local_amount") as [la|]; cbn [bind]; [|discriminate].
  destruct (negb _); [|discriminate].
  destruct (getitem t "amount") as [a|]; cbn [bind]; [|discriminate].
  destruct (D lib a) as [total|]; cbn [bind]; [|discriminate].
  destruct (D lib la) as [foreign|]; cbn [bind]; [|discriminate].
  destruct (Dec.div foreign total) as [q|]; cbn [bind]; [|discriminate].
  destruct (Dec.round (Dec.abs q) 5) as [unit_price|] eqn:Hround; cbn [bind];
    [|discriminate].
  apply quantize_shape in Hround as (Hexp & Hsign).
  unfold Dec.abs in Hsign. rewrite dec_fix_sign in Hsign. cbn [dsign] in Hsign.
  unfold new_Amount.
  destruct lc; cbn [bind]; try discriminate; intros H; injection H as <-;
    cbn [number currency]; auto.
Qed.

Lemma unit_price_shape_witness :
  exists p,
    get_unit_price sample_lib sample_foreign = Ok (Some p) /\
    dsign (number p) = false /\
    dexp (number p) = - 5 /\
    getitem sample_foreign "local_currency" = Ok (currency p).
Proof.
  eexists. split; [vm_compute; reflexivity|].
  apply (unit_price_shape sample_lib sample_foreign). vm_compute. reflexivity.
Defined.

(** The coefficient and the exponent of a quotient do not depend on the
    signs of the operands. *)
Lemma dec_fix_unsigned s c e :
  dec_fix (mkDec s c e) =
  mkDec s (dcoeff (dec_fix (mkDec false c e))) (dexp (dec_fix (mkDec false c e))).
Proof.
  unfold dec_fix. cbn [dcoeff dexp dsign].
  destruct (_ =? _); [reflexivity|].
  destruct (_ <? _); [|reflexivity]. destruct (_ <? _); reflexivity.
Qed.

Lemma abs_unsigned s c e : Dec.abs (mkDec s c e) = Dec.abs (mkDec false c e).
Proof. reflexivity. Qed.

Lemma div_abs_unsigned s1 s2 x y :
  (q <- Dec.div (mkDec s1 x 0) (mkDec s2 y 0) ;; Ok (Dec.abs q)) =
  (q <- Dec.div (mkDec false x 0) (mkDec false y 0) ;; Ok (Dec.abs q)).
Proof.
  unfold Dec.div. cbn [dcoeff dexp dsign].
  destruct (y =? 0); [destruct (x =? 0); reflexivity|].
  destruct (x =? 0).
  - cbn [bind]. rewrite (dec_fix_unsigned (xorb s1 s2)),
      (dec_fix_unsigned (xorb false false)). reflexivity.
  - cbv zeta. destruct (_ =? 0).
    + destruct (strip_zeros _ _ _ _) as [c' e']. cbn [bind].
      rewrite (dec_fix_unsigned (xorb s1 s2)),
        (dec_fix_unsigned (xorb false false)). reflexivity.
    + cbn [bind]. rewrite (dec_fix_unsigned (xorb s1 s2)),
        (dec_fix_unsigned (xorb false false)). reflexivity.
Qed.

(** X18: the price depends on the magnitudes of the two amounts only: a
    refund gets the price of the payment it reverses. *)
Theorem unit_price_ignores_signs lib fields fields' a la a' la' c lc :
  dict_get fields "amount" = Some (JInt a) ->
  dict_get fields "local_amount" = Some (JInt la) ->
  dict_get fields "currency" = Some c ->
  dict_get fields "local_currency" = Some lc ->
  dict_get fields' "amount" = Some (JInt a') ->
  dict_get fields' "local_amount" = Some (JInt la') ->
  dict_get fields' "currency" = Some c ->
  dict_get fields' "local_currency" = Some lc ->
  Z.abs a' = Z.abs a ->
  Z.abs la' = Z.abs la ->
  get_unit_price lib (JObj fields') = get_unit_price lib (JObj fields).
Proof.
  intros Ha Hla Hc Hlc Ha' Hla' Hc' Hlc' Habs Hlabs.
  unfold get_unit_price. cbn [getitem].
  rewrite Ha, Hla, Hc, Hlc, Ha', Hla', Hc', Hlc'. cbn [bind py_eq D].
  destruct (negb (py_eq lc c)); [|reflexivity].
  assert (Hzero : (la' =? 0) = (la =? 0)).
  { destruct (Z.eqb_spec la' 0), (Z.eqb_spec la 0); lia || reflexivity. }
  rewrite Hzero. destruct (negb (la =? 0)); [|reflexivity].
  unfold Dec.of_Z. rewrite Habs, Hlabs.
  pose proof (div_abs_unsigned (la' <? 0) (a' <? 0) (Z.abs la) (Z.abs a)) as H1.
  pose proof (div_abs_unsigned (la <? 0) (a <? 0) (Z.abs la) (Z.abs a)) as H2.
  destruct (Dec.div (mkDec (la' <? 0) (Z.abs la) 0) (mkDec (a' <? 0) (Z.abs a) 0))
    as [q1|e1];
  destruct (Dec.div (mkDec (la <? 0) (Z.abs la) 0) (mkDec (a <? 0) (Z.abs a) 0))
    as [q2|e2];
  destruct (Dec.div (mkDec false (Z.abs la) 0) (mkDec false (Z.abs a) 0))
    as [q0|e0];
    cbn [bind] in *; try discriminate; congruence.
Qed.

(** ** File names *)

Lemma has_slash_app p q : has_slash (p ++ q) = has_slash p || has_slash q.
Proof.
  induction p as [|c p IH]; cbn [append has_slash]; [reflexivity|].
  now rewrite IH, orb_assoc.
Qed.

Lemma basename_no_slash p : has_slash p = false -> basename p = p.
Proof.
  destruct p as [|c p]; [reflexivity|]. cbn [has_slash basename].
  intros H. apply orb_false_elim in H as (Hc & Hp). now rewrite Hp, Hc.
Qed.

Lemma basename_flat p : has_slash (basename p) = false.
Proof.
  induction p as [|c p IH]; [reflexivity|]. cbn [basename].
  destruct (has_slash p) eqn:Hp; [exact IH|].
  destruct (Ascii.eqb c "/") eqn:Hc; [exact Hp|].
  cbn [has_slash]. now rewrite Hc, Hp.
Qed.

Lemma basename_after_slash dir name :
  has_slash name = false -> basename (dir ++ "/" ++ name) = name.
Proof.
  intros Hname. induction dir as [|c dir IH].
  - cbn [append basename]. now rewrite Hname.
  - cbn [append basename]. rewrite has_slash_app. cbn [append has_slash].
    rewrite Ascii.eqb_refl. cbn [orb]. rewrite orb_true_r. exact IH.
Qed.

(** X19: [filename] keeps the last component of the path behind the
    prefix "monzo.": the name it returns contains no slash. *)
Theorem filename_drops_directories dir name :
  has_slash name = false ->
  filename (dir ++ "/" ++ name) = "monzo." ++ name /\
  filename name = "monzo." ++ name /\
  forall p, has_slash (filename p) = false.
Proof.
  intros Hname. unfold filename. split; [|split].
  - now rewrite basename_after_slash.
  - now rewrite basename_no_slash.
  - intros p. rewrite has_slash_app, basename_flat. reflexivity.
Qed.

Lemma filename_drops_directories_witness :
  filename "/home/jorge/bank/2024-03-10-monzo-acc_00009237aqC8c5umZmrRdh.json"
  = "monzo.2024-03-10-monzo-acc_00009237aqC8c5umZmrRdh.json".
Proof.
  apply (proj1 (filename_drops_directories "/home/jorge/bank"
                  "2024-03-10-monzo-acc_00009237aqC8c5umZmrRdh.json" eq_refl)).
Defined.



(** X13: the Note of a PIN change or of a declined record is built from
    the identifiers, the description, the timestamps, the counterparty,
    the notes, the decline reason and the merchant: the amounts, the
    currencies, the scheme and the pot metadata may be anything, or
    missing. *)
Theorem notes_ignore_amounts lib self fp entries fields fields' notes :
  (forall k, In k note_keys -> dict_get fields' k = dict_get fields k) ->
  dict_get fields "notes" = Some (JStr notes) ->
  lower_string notes = "pin change" \/ dict_mem fields "decline_reason" = true ->
  extract_body lib self fp entries (JObj fields')
  = extract_body lib self fp entries (JObj fields).
Proof.
  intros Hsame Hnotes Hnote.
  assert (Hk : forall k, existsb (String.eqb k) note_keys = true ->
                         dict_get fields' k = dict_get fields k).
  { intros k H. apply Hsame. apply existsb_exists in H as (k' & Hin & Heq).
    apply String.eqb_eq in Heq. now subst. }
  unfold extract_body, extract_metadata, get_payee. cbn [getitem contains].
  unfold dict_mem in *.
  rewrite !Hk by reflexivity. rewrite Hnotes.
  repeat (match goal with
          | |- context [match dict_get fields ?k with _ => _ end] =>
              destruct (dict_get fields k); cbn [bind]; try reflexivity
          end).
  all: cbn [bind lower];
    destruct (String.eqb_spec (lower_string notes) "pin change") as [Hpin|Hpin];
    try reflexivity;
    destruct Hnote as [Hnote|Hnote]; try contradiction; try discriminate Hnote.
Qed.

Lemma notes_ignore_amounts_witness :
  dict_get sample_pin_change_bare_fields "amount" = None /\
  dict_get sample_pin_change_bare_fields "scheme" = None /\
  extract_body sample_lib sample_importer "monzo.json" []
    (JObj sample_pin_change_bare_fields)
  = extract_body sample_lib sample_importer "monzo.json" []
      (JObj sample_pin_change_fields).
Proof.
  split; [reflexivity|]. split; [reflexivity|].
  apply (notes_ignore_amounts sample_lib sample_importer "monzo.json" []
           sample_pin_change_fields sample_pin_change_bare_fields "PIN Change").
  - intros k Hk. simpl in Hk.
    repeat (destruct Hk as [<-|Hk]; [reflexivity|]). destruct Hk.
  - reflexivity.
  - left. reflexivity.
Defined.

Lemma entries_carry_bank_metadata_witness :
  exists e,
    nth_error sample_march_items 3 = Some sample_declined_p2p /\
    dict_get (entry_meta e) "filename" = Some (JStr sample_march_path) /\
    dict_get (entry_meta e) "lineno" = Some (JInt 0) /\
    Forall (fun key => exists v, getitem sample_declined_p2p (snd key) = Ok v /\
                                 dict_get (entry_meta e) (fst key) = Some v)
           bank_keys.
Proof.
  eexists. split; [reflexivity|].
  eapply (entries_carry_bank_metadata sample_march sample_importer
            sample_march_path None _ sample_march_items 3 sample_declined_p2p).
  - vm_compute. reflexivity.
  - reflexivity.
  - reflexivity.
  - vm_compute. reflexivity.
Defined.

Lemma entries_carry_one_counterparty_shape_witness :
  exists e,
    one_counterparty_shape sample_bank_transfer (entry_meta e) /\
    contains "number" (JObj sample_bank_counterparty) = Ok true /\
    dict_get (entry_meta e) "counterparty_account_number" = Some (JStr "12345678") /\
    dict_get (entry_meta e) "counterparty_sort_code" = Some (JStr "040004") /\
    dict_get (entry_meta e) "counterparty_phone_number" = None.
Proof.
  eexists. split.
  - eapply (entries_carry_one_counterparty_shape sample_april sample_importer
              sample_march_path None _ sample_april_items 0 sample_bank_transfer).
    + vm_compute. reflexivity.
    + reflexivity.
    + reflexivity.
    + vm_compute. reflexivity.
  - repeat split; reflexivity.
Defined.

Lemma extract_entries_well_formed_witness :
  exists entries,
    extract sample_march sample_importer sample_march_path None = Ok entries /\
    List.length entries = 4%nat /\
    Forall (entry_well_formed "Assets:Monzo:Current") entries.
Proof.
  eexists. split; [vm_compute; reflexivity|]. split; [reflexivity|].
  apply (extract_entries_well_formed sample_march sample_importer
           sample_march_path None).
  vm_compute. reflexivity.
Defined.

Lemma entries_follow_the_precedence_witness :
  classify (sample_base "" "uk_retail_pot" (-5000) (-5000) "GBP" "GBP") "" = PotTransfer /\
  exists e fields notes,
    sample_pot = JObj fields /\
    dict_get fields "notes" = Some (JStr notes) /\
    has_shape (classify fields notes) e.
Proof.
  split; [reflexivity|]. eexists.
  eapply (entries_follow_the_precedence sample_march sample_importer
            sample_march_path None _ sample_march_items 1 sample_pot).
  - vm_compute. reflexivity.
  - reflexivity.
  - reflexivity.
  - vm_compute. reflexivity.
Defined.

Lemma transactions_are_narrated_witness :
  exists notes,
    getitem sample_pot "notes" = Ok (JStr notes) /\
    ((notes <> "" /\ JStr "Internal pot transfer" = JStr notes) \/
     (notes = "" /\ 2%nat = 2%nat /\
      JStr "Internal pot transfer" = JStr "Internal pot transfer") \/
     (notes = "" /\ 2%nat = 1%nat /\
      getitem sample_pot "description" = Ok (JStr "Internal pot transfer"))).
Proof.
  eapply (transactions_are_narrated sample_march sample_importer
            sample_march_path None _ sample_march_items 1 sample_pot
            _ _ _ _ (JStr "Internal pot transfer") _ _ [_; _]).
  - vm_compute. reflexivity.
  - reflexivity.
  - reflexivity.
  - vm_compute. reflexivity.
Defined.

Lemma unexpanded_merchant_witness :
  get_payee (JObj sample_unexpanded_fields) = Raise TypeError /\
  exists e,
    extract_body sample_lib sample_importer "monzo.json" []
      (JObj sample_unexpanded_fields) = Raise e.
Proof.
  destruct (unexpanded_merchant sample_lib sample_importer "monzo.json" []
              sample_unexpanded_fields (JStr "merch_00009Bq5hvIhOl3kEc2R3J")
              eq_refl eq_refl ltac:(discriminate)) as (Hpayee & Hbody).
  split; [exact Hpayee|].
  apply (Hbody "" eq_refl). discriminate.
Defined.

Lemma unit_price_ignores_signs_witness :
  get_unit_price sample_lib
    (JObj (sample_base "refund" "mastercard" (-1000) 850 "GBP" "EUR"))
  = get_unit_price sample_lib sample_foreign.
Proof.
  apply (unit_price_ignores_signs sample_lib
           (sample_base "" "mastercard" 1000 (-850) "GBP" "EUR")
           (sample_base "refund" "mastercard" (-1000) 850 "GBP" "EUR")
           1000 (-850) (-1000) 850 (JStr "GBP") (JStr "EUR"));
    reflexivity.
Defined.

Lemma counterparty_shape_is_all_or_nothing_witness :
  exists e,
    extract sample_no_sort_code sample_importer sample_march_path None = Raise e.
Proof.
  apply (counterparty_shape_is_all_or_nothing sample_no_sort_code sample_importer
           sample_march_path None sample_no_sort_code_items
           sample_no_sort_code_fields [("account_number", JStr "12345678")]).
  - reflexivity.
  - right. left. reflexivity.
  - reflexivity.
  - left. split; reflexivity.
Defined.
